(** * CloudOps ROI assessment: the ROI calculator, embedded from
      [src/calculators/roi_calculator.py].

    The calculator is closed-form arithmetic over a metrics dictionary.  Its
    numbers are Python numbers: unbounded integers and IEEE 754 binary64
    floats.  Both are modelled as they are: integers as [Z], floats as Rocq's
    primitive binary64 floats, with Python's coercion of an integer operand to
    a float, its exact mixed comparisons, and the two exceptions the
    arithmetic can raise ([OverflowError] when an integer does not fit a
    float, [ZeroDivisionError] on a zero divisor). *)

From Stdlib Require Import ZArith Uint63 Floats Lia.
From stdpp Require Import base option list gmap strings.

#[local] Set Warnings "-inexact-float".
#[local] Open Scope Z_scope.

(** ** Python numbers and exceptions *)

Inductive pyval : Type :=
| PInt (z : Z)
| PFloat (f : float).

Inductive exn : Type := OverflowError | ZeroDivisionError.

Inductive result (A : Type) : Type :=
| Ok (a : A)
| Raise (e : exn).
Arguments Ok {A} a.
Arguments Raise {A} e.

#[global] Instance result_ret : MRet result := fun _ a => Ok a.
#[global] Instance result_bind : MBind result := fun _ _ k r =>
  match r with
  | Ok a => k a
  | Raise e => Raise e
  end.
#[global] Instance result_fmap : FMap result := fun _ _ f r =>
  match r with
  | Ok a => Ok (f a)
  | Raise e => Raise e
  end.

(** [float(z)] as CPython's [PyLong_AsDouble] computes it: the integer rounded
    to the nearest binary64 value, ties to even; it raises when the rounded
    value is out of range. *)
Definition float_of_int (z : Z) : result float :=
  match binary_normalize prec emax z 0 false with
  | S754_infinity _ => Raise OverflowError
  | sf => Ok (SF2Prim sf)
  end.

(** The binary operators [+], [-] and [*]: integer arithmetic on two integers,
    float arithmetic once either operand is a float (the integer operand is
    converted first).  Float arithmetic itself never raises: it overflows to
    an infinity and propagates NaN. *)
Definition arith (fz : Z -> Z -> Z) (ff : float -> float -> float)
    (a b : pyval) : result pyval :=
  match a, b with
  | PInt x, PInt y => Ok (PInt (fz x y))
  | PInt x, PFloat y => x' ← float_of_int x; Ok (PFloat (ff x' y))
  | PFloat x, PInt y => y' ← float_of_int y; Ok (PFloat (ff x y'))
  | PFloat x, PFloat y => Ok (PFloat (ff x y))
  end.

Definition py_add : pyval -> pyval -> result pyval := arith Z.add PrimFloat.add.
Definition py_sub : pyval -> pyval -> result pyval := arith Z.sub PrimFloat.sub.
Definition py_mul : pyval -> pyval -> result pyval := arith Z.mul PrimFloat.mul.

(** True division [/] of two floats. *)
Definition float_div (x y : float) : result float :=
  if (y =? 0)%float then Raise ZeroDivisionError else Ok (x / y)%float.

(** True division of two integers ([long_true_divide]): the exact quotient,
    correctly rounded.  The quotient is taken with at least 55 significant
    bits and a sticky last bit, which the final rounding to 53 bits turns
    into the nearest float. *)
Definition int_true_divide (a b : Z) : result float :=
  if b =? 0 then Raise ZeroDivisionError
  else
    let neg := xorb (a <? 0) (b <? 0) in
    if a =? 0 then Ok (if neg then neg_zero else zero)
    else
      let n := Z.abs a in
      let d := Z.abs b in
      let k := Z.max 0 (Z.log2 d + 56 - Z.log2 n) in
      let q := (n * 2 ^ k) / d in
      let m := if (n * 2 ^ k) mod d =? 0 then q else Z.lor q 1 in
      match binary_normalize prec emax (if neg then - m else m) (- k) neg with
      | S754_infinity _ => Raise OverflowError
      | sf => Ok (SF2Prim sf)
      end.

Definition py_truediv (a b : pyval) : result pyval :=
  match a, b with
  | PInt x, PInt y => PFloat <$> int_true_divide x y
  | PInt x, PFloat y => x' ← float_of_int x; PFloat <$> float_div x' y
  | PFloat x, PInt y => y' ← float_of_int y; PFloat <$> float_div x y'
  | PFloat x, PFloat y => PFloat <$> float_div x y
  end.

(** Comparison.  Two floats compare as IEEE 754 says (a NaN is unordered);
    an integer and a float compare by their exact mathematical values, with
    no conversion and hence no overflow. *)
Definition Z_compare_SF (z : Z) (f : spec_float) : option comparison :=
  match f with
  | S754_nan => None
  | S754_infinity s => Some (if s then Gt else Lt)
  | S754_zero _ => Some (z ?= 0)
  | S754_finite s m e =>
      let v := cond_Zopp s (Z.pos m) in
      Some (if 0 <=? e then z ?= v * 2 ^ e else z * 2 ^ (- e) ?= v)
  end.

Definition py_compare (a b : pyval) : option comparison :=
  match a, b with
  | PInt x, PInt y => Some (x ?= y)
  | PInt x, PFloat y => Z_compare_SF x (Prim2SF y)
  | PFloat x, PInt y => CompOpp <$> Z_compare_SF y (Prim2SF x)
  | PFloat x, PFloat y => SFcompare (Prim2SF x) (Prim2SF y)
  end.

Definition py_gt (a b : pyval) : bool :=
  match py_compare a b with Some Gt => true | _ => false end.
Definition py_ge (a b : pyval) : bool :=
  match py_compare a b with Some (Gt | Eq) => true | _ => false end.
Definition py_lt (a b : pyval) : bool :=
  match py_compare a b with Some Lt => true | _ => false end.
Definition py_le (a b : pyval) : bool :=
  match py_compare a b with Some (Lt | Eq) => true | _ => false end.
Definition py_eq (a b : pyval) : bool :=
  match py_compare a b with Some Eq => true | _ => false end.

(** [sum(xs)]: a left fold of [+] that starts from the integer 0.  (CPython
    from 3.12 on carries a compensation term while it adds several floats in
    a row; after a single float addend, as for the integer license and server
    costs the collector produces, the total is the same.) *)
Definition py_sum (xs : list pyval) : result pyval :=
  foldl (fun acc x => a ← acc; py_add a x) (Ok (PInt 0)) xs.

(** ** The metrics snapshot

    A dictionary from metric names to numbers; [metrics.get(key, d)] is the
    stored value, or [d] when the key is absent. *)
Definition get (metrics : gmap string pyval) (key : string) (d : pyval) : pyval :=
  default d (metrics !! key).

(** [tag in services] on a list of strings. *)
Definition contains (tag : string) (services : list string) : bool :=
  bool_decide (tag ∈ services).

(** ** ROICalculator *)

(** [self.aws_pricing], the unit prices set in [__init__]. *)
Module aws_pricing.
Module cloudwatch.
Definition metrics : float := 0.30%float.
Definition logs_ingestion : float := 0.50%float.
Definition dashboard : float := 3.00%float.
End cloudwatch.
Module systems_manager.
Definition patch_management : float := 0.09%float.
Definition inventory : float := 0.0033%float.
Definition automation : float := 0.02%float.
End systems_manager.
Module config.
Definition configuration_items : float := 0.003%float.
Definition rules : float := 0.001%float.
End config.
End aws_pricing.

(** The dictionary under the ['cost_breakdown'] key of the result. *)
Record cost_breakdown_t : Type := {
  infrastructure_savings : pyval;
  productivity_gains : pyval;
  risk_reduction : pyval
}.

(** The dictionary [calculate_migration_roi] returns. *)
Record roi_result : Type := {
  current_annual_cost : pyval;
  aws_annual_cost : pyval;
  annual_savings : pyval;
  three_year_savings : pyval;
  migration_cost : pyval;
  three_year_roi : pyval;
  break_even_months : pyval;
  operational_savings : pyval;
  risk_mitigation_value : pyval;
  cost_breakdown : cost_breakdown_t
}.

Definition _calculate_current_costs (metrics : gmap string pyval) : result pyval :=
  let monitoring_tools := get metrics "monitoring_tool_licenses" (PInt 0) in
  let infrastructure := get metrics "server_costs" (PInt 0) in
  staff_overhead ← py_mul (get metrics "ops_staff_cost" (PInt 0)) (PFloat 0.3);
  downtime_cost ← py_mul (get metrics "annual_downtime_hours" (PInt 0))
                         (get metrics "hourly_revenue_impact" (PInt 0));
  py_sum [monitoring_tools; infrastructure; staff_overhead; downtime_cost].

(** One line item of a service's yearly cost: [count * rate * 12]. *)
Definition line_item (count : pyval) (rate : float) : result pyval :=
  monthly ← py_mul count (PFloat rate); py_mul monthly (PInt 12).

Definition cloudwatch_cost (metrics : gmap string pyval) : result pyval :=
  let metrics_count := get metrics "total_metrics" (PInt 100) in
  let log_volume_gb := get metrics "log_volume_gb_monthly" (PInt 50) in
  let dashboards := get metrics "dashboards" (PInt 10) in
  a ← line_item metrics_count aws_pricing.cloudwatch.metrics;
  b ← line_item log_volume_gb aws_pricing.cloudwatch.logs_ingestion;
  ab ← py_add a b;
  c ← line_item dashboards aws_pricing.cloudwatch.dashboard;
  py_add ab c.

Definition systems_manager_cost (metrics : gmap string pyval) : result pyval :=
  let instances := get metrics "total_instances" (PInt 100) in
  let automations := get metrics "monthly_automations" (PInt 50) in
  a ← line_item instances aws_pricing.systems_manager.patch_management;
  b ← line_item instances aws_pricing.systems_manager.inventory;
  ab ← py_add a b;
  c ← line_item automations aws_pricing.systems_manager.automation;
  py_add ab c.

Definition config_cost (metrics : gmap string pyval) : result pyval :=
  let config_items := get metrics "configuration_items" (PInt 500) in
  let rule_evaluations := get metrics "compliance_checks_monthly" (PInt 1000) in
  a ← line_item config_items aws_pricing.config.configuration_items;
  b ← line_item rule_evaluations aws_pricing.config.rules;
  py_add a b.

(** [if tag in services: total_cost += cost] *)
Definition add_if_selected (tag : string) (services : list string)
    (cost : result pyval) (total_cost : pyval) : result pyval :=
  if contains tag services then c ← cost; py_add total_cost c
  else Ok total_cost.

Definition _calculate_aws_costs (metrics : gmap string pyval)
    (services : list string) : result pyval :=
  let total_cost := PInt 0 in
  total_cost ← add_if_selected "cloudwatch" services (cloudwatch_cost metrics) total_cost;
  total_cost ← add_if_selected "systems_manager" services (systems_manager_cost metrics) total_cost;
  total_cost ← add_if_selected "config" services (config_cost metrics) total_cost;
  Ok total_cost.

Definition _calculate_operational_savings (metrics : gmap string pyval) : result pyval :=
  let current_mttr := get metrics "mean_time_to_resolution_hours" (PInt 4) in
  projected_mttr ← py_mul current_mttr (PFloat 0.4);
  let incident_frequency := get metrics "monthly_incidents" (PInt 20) in
  let avg_engineer_cost_per_hour := get metrics "engineer_hourly_cost" (PInt 100) in
  improvement ← py_sub current_mttr projected_mttr;
  hours ← py_mul incident_frequency improvement;
  monthly_savings ← py_mul hours avg_engineer_cost_per_hour;
  py_mul monthly_savings (PInt 12).

Definition _calculate_risk_mitigation (metrics : gmap string pyval) : result pyval :=
  let compliance_violations := get metrics "annual_compliance_violations" (PInt 2) in
  let avg_violation_cost := get metrics "compliance_violation_cost" (PInt 50000) in
  let compliance_improvement := PFloat 0.8 in
  let security_incidents := get metrics "annual_security_incidents" (PInt 1) in
  let avg_security_cost := get metrics "security_incident_cost" (PInt 100000) in
  let security_improvement := PFloat 0.7 in
  c ← py_mul compliance_violations avg_violation_cost;
  c ← py_mul c compliance_improvement;
  s ← py_mul security_incidents avg_security_cost;
  s ← py_mul s security_improvement;
  py_add c s.

(** The two [if] statements that scale [complexity_multiplier]. *)
Definition complexity_multiplier (metrics : gmap string pyval)
    (services : list string) : float :=
  let m := 1.0%float in
  let m := if py_gt (get metrics "total_instances" (PInt 0)) (PInt 500)
           then (m * 1.5)%float else m in
  let m := if (2 <? length services)%nat then (m * 1.2)%float else m in
  m.

Definition _calculate_migration_costs (metrics : gmap string pyval)
    (services : list string) : result pyval :=
  let base_migration_cost := PInt 50000 in
  let complexity_multiplier := complexity_multiplier metrics services in
  training_cost ← py_mul (get metrics "ops_team_size" (PInt 5)) (PInt 2000);
  scaled ← py_mul base_migration_cost (PFloat complexity_multiplier);
  py_add scaled training_cost.

(** [float('inf')] *)
Definition float_inf : pyval := PFloat infinity.

(** The conditional expression assigned to [break_even_months]. *)
Definition break_even (migration_cost annual_savings : pyval) : result pyval :=
  if py_gt annual_savings (PInt 0)
  then monthly ← py_truediv annual_savings (PInt 12);
       py_truediv migration_cost monthly
  else Ok float_inf.

Definition calculate_migration_roi (current_metrics : gmap string pyval)
    (target_services : list string) (timeline_months : Z) : result roi_result :=
  current_annual_cost ← _calculate_current_costs current_metrics;
  aws_annual_cost ← _calculate_aws_costs current_metrics target_services;
  operational_savings ← _calculate_operational_savings current_metrics;
  risk_mitigation ← _calculate_risk_mitigation current_metrics;
  migration_cost ← _calculate_migration_costs current_metrics target_services;
  infra ← py_sub current_annual_cost aws_annual_cost;
  with_ops ← py_add infra operational_savings;
  annual_savings ← py_add with_ops risk_mitigation;
  three_year_savings ← py_mul annual_savings (PInt 3);
  net ← py_sub three_year_savings migration_cost;
  three_year_roi ← py_truediv net migration_cost;
  break_even_months ← break_even migration_cost annual_savings;
  infrastructure_savings ← py_sub current_annual_cost aws_annual_cost;
  Ok {| current_annual_cost := current_annual_cost;
        aws_annual_cost := aws_annual_cost;
        annual_savings := annual_savings;
        three_year_savings := three_year_savings;
        migration_cost := migration_cost;
        three_year_roi := three_year_roi;
        break_even_months := break_even_months;
        operational_savings := operational_savings;
        risk_mitigation_value := risk_mitigation;
        cost_breakdown :=
          {| infrastructure_savings := infrastructure_savings;
             productivity_gains := operational_savings;
             risk_reduction := risk_mitigation |} |}.

(** ** generate_executive_summary

    The summary is a text template filled with fields of the result.  It is
    modelled by the values the template interpolates, in the order of its
    lines; the formatting of the numbers is left out. *)
Record executive_summary : Type := {
  summary_annual_cost_savings : pyval;
  summary_three_year_roi : pyval;
  summary_break_even_point : pyval;
  summary_migration_investment : pyval;
  summary_infrastructure_cost_reduction : pyval;
  summary_operational_efficiency_gains : pyval;
  summary_risk_mitigation_value : pyval;
  summary_business_case : string
}.

(** The conditional expression interpolated after ["Business Case: "]. *)
Definition business_case (roi : pyval) : string :=
  if py_gt roi (PFloat 1.0) then "STRONG"
  else if py_gt roi (PFloat 0.3) then "MODERATE"
  else "WEAK".

Definition generate_executive_summary (roi_data : roi_result) : executive_summary :=
  {| summary_annual_cost_savings := annual_savings roi_data;
     summary_three_year_roi := three_year_roi roi_data;
     summary_break_even_point := break_even_months roi_data;
     summary_migration_investment := migration_cost roi_data;
     summary_infrastructure_cost_reduction :=
       infrastructure_savings (cost_breakdown roi_data);
     summary_operational_efficiency_gains :=
       productivity_gains (cost_breakdown roi_data);
     summary_risk_mitigation_value := risk_reduction (cost_breakdown roi_data);
     summary_business_case := business_case (three_year_roi roi_data) |}.

(** ** The end-to-end scenario of the specification *)

Definition scenario : gmap string pyval :=
  list_to_map
    [("total_instances", PInt 100); ("monitoring_tool_licenses", PInt 27600);
     ("ops_staff_cost", PInt 120000); ("annual_downtime_hours", PInt 48);
     ("hourly_revenue_impact", PInt 10000); ("monthly_incidents", PInt 20);
     ("mean_time_to_resolution_hours", PInt 4); ("engineer_hourly_cost", PInt 100);
     ("annual_compliance_violations", PInt 2); ("compliance_violation_cost", PInt 50000);
     ("annual_security_incidents", PInt 1); ("security_incident_cost", PInt 100000);
     ("ops_team_size", PInt 5)].

(** ** Further inputs and predicates used in the statements *)

Definition six_hundred_instances : gmap string pyval :=
  {[ "total_instances" := PInt 600 ]}.

Definition three_services : list string :=
  ["cloudwatch"; "systems_manager"; "config"].

Definition no_instance_count : gmap string pyval :=
  {[ "monthly_automations" := PInt 10 ]}.

(** A snapshot whose annual savings are the smallest positive float. *)
Definition tiny_savings : gmap string pyval :=
  list_to_map
    [("monitoring_tool_licenses", PFloat 5e-324); ("monthly_incidents", PInt 0);
     ("annual_compliance_violations", PInt 0); ("annual_security_incidents", PInt 0)].

(** A float that is a NaN; integers never are. *)
Definition is_nan_val (a : pyval) : Prop :=
  match a with
  | PInt _ => False
  | PFloat f => Prim2SF f = S754_nan
  end.

(** Two numbers that are the same number: identical, or equal under [==]
    (which identifies the two zeros). *)
Definition same_number (a b : pyval) : Prop := a = b \/ py_eq a b = true.

Definition is_float (a : pyval) : Prop := exists f, a = PFloat f.

(** A mantissa [m] and exponent [e] whose value [m * 2 ^ e] is at least
    50000: for a negative exponent this is the exact inequality, for the
    others the mantissa has at least 53 bits. *)
Definition above_base (m e : Z) : Prop :=
  0 < m /\ (e < 0 -> 50000 * 2 ^ (- e) <= m) /\ (0 <= e -> 2 ^ 52 <= m).

(** A float that is at least 50000: a positive finite float whose mantissa
    and exponent are above the base, or plus infinity. *)
Definition SF_above_base (sf : spec_float) : Prop :=
  match sf with
  | S754_infinity false => True
  | S754_finite false m e => above_base (Z.pos m) e
  | _ => False
  end.

(** A float that is not negative and not a NaN (either zero counts). *)
Definition SF_nonneg (sf : spec_float) : Prop :=
  match sf with
  | S754_zero _ | S754_infinity false | S754_finite false _ _ => True
  | _ => False
  end.

Definition SF_above_baseb (sf : spec_float) : bool :=
  match sf with
  | S754_infinity false => true
  | S754_finite false m e =>
      if e <? 0 then 50000 * 2 ^ (- e) <=? Z.pos m else 2 ^ 52 <=? Z.pos m
  | _ => false
  end.

Definition SF_is_infinity (sf : spec_float) : bool :=
  match sf with S754_infinity _ => true | _ => false end.

(** A snapshot whose annual savings are negative. *)
Definition negative_savings : gmap string pyval :=
  {[ "monitoring_tool_licenses" := PInt (-1000000) ]}.

(** ** DatadogCollector, from [src/data_collectors/datadog_collector.py]

    The collector talks to the Datadog API.  What the API gives is an input
    of the model: the length of the host list, and for each metric query
    whether it raised or what series it returned.  The two timestamps parsed
    from the date strings are only passed on to the queries; a malformed date
    or a failing host search raises before any metric is set, and the model
    starts after both. *)

(** One sample [[timestamp, value]] of a series' point list; the value is
    [None] where Datadog has no data. *)
Definition point : Type := pyval * option pyval.

(** The outcome of [api.Metric.query]: an exception, or a response with its
    list of series, each given by its point list.  A response without the
    keys the code reads raises [KeyError] inside the same [try] and so
    behaves as [QueryRaised]. *)
Inductive query_outcome : Type :=
| QueryRaised
| QueryReturned (series : list (list point)).

(** [sum(1 for point in error_points if point[1] > incident_threshold)] with
    [incident_threshold = 0.05]; comparing [None] with a float raises
    [TypeError], which is the result [None] here. *)
Fixpoint count_spikes (error_points : list point) : option Z :=
  match error_points with
  | [] => Some 0
  | (_, None) :: _ => None
  | (_, Some value) :: rest =>
      n ← count_spikes rest;
      Some (if py_gt value (PFloat 0.05) then 1 + n else n)
  end.

(** The dictionary returned from the [try] block for [incidents] spikes. *)
Definition incident_estimate (incidents : Z) : gmap string pyval :=
  let avg_incident_duration := 2 in
  let total_downtime := incidents * avg_incident_duration in
  list_to_map
    [("monthly_incidents", PInt (incidents / 12));
     ("annual_downtime_hours", PInt total_downtime);
     ("mean_time_to_resolution_hours", PInt 4);
     ("hourly_revenue_impact", PInt 10000)].

(** The dictionary returned from the [except] block. *)
Definition incident_fallback : gmap string pyval :=
  list_to_map
    [("monthly_incidents", PInt 20);
     ("annual_downtime_hours", PInt 48);
     ("mean_time_to_resolution_hours", PInt 4);
     ("hourly_revenue_impact", PInt 10000)].

Definition _get_incident_data (error_query : query_outcome) : gmap string pyval :=
  match error_query with
  | QueryRaised => incident_fallback
  | QueryReturned [] => incident_estimate 24
  | QueryReturned (error_points :: _) =>
      match count_spikes error_points with
      | Some incidents => incident_estimate incidents
      | None => incident_fallback
      end
  end.

(** Both the [try] and the [except] block return this dictionary; the two
    query results are not used. *)
Definition _get_performance_metrics (queries : query_outcome * query_outcome)
    : gmap string pyval :=
  list_to_map
    [("total_metrics", PInt 150);
     ("avg_cpu_utilization", PInt 65);
     ("avg_memory_utilization", PInt 70);
     ("dashboards", PInt 15)].

Definition _get_log_metrics : result (gmap string pyval) :=
  let host_count := PInt 100 in
  log_volume_gb ← py_mul host_count (PFloat 1.2);
  rate ← py_truediv log_volume_gb (PInt 30);
  Ok (list_to_map
        [("log_volume_gb_monthly", log_volume_gb);
         ("log_retention_days", PInt 30);
         ("log_ingestion_rate_gb_day", rate)]).

(** [metrics.update(other)]: the entries of [other] replace those of
    [metrics]. *)
Definition update (metrics other : gmap string pyval) : gmap string pyval :=
  other ∪ metrics.

(** [collect_infrastructure_metrics], from the host search on.  [hosts] is
    [len(hosts['host_list'])]. *)
Definition collect_infrastructure_metrics (hosts : nat)
    (error_query : query_outcome) (performance_queries : query_outcome * query_outcome)
    : result (gmap string pyval) :=
  let metrics : gmap string pyval := ∅ in
  let metrics := <["total_instances" := PInt (Z.of_nat hosts)]> metrics in
  let metrics := <["monitoring_tool_licenses" := PInt (Z.of_nat hosts * 23 * 12)]> metrics in
  let metrics := update metrics (_get_incident_data error_query) in
  let metrics := update metrics (_get_performance_metrics performance_queries) in
  log_metrics ← _get_log_metrics;
  let metrics := update metrics log_metrics in
  let metrics := <["ops_staff_cost" := PInt 120000]> metrics in
  let metrics := <["engineer_hourly_cost" := PInt 100]> metrics in
  let metrics := <["ops_team_size" := PInt (Z.max 1 (Z.of_nat hosts / 100))]> metrics in
  Ok metrics.

(** ** Names and predicates used in the further properties *)

(** The metric names the calculator reads. *)
Definition read_keys : list string :=
  ["monitoring_tool_licenses"; "server_costs"; "ops_staff_cost";
   "annual_downtime_hours"; "hourly_revenue_impact";
   "total_metrics"; "log_volume_gb_monthly"; "dashboards";
   "total_instances"; "monthly_automations";
   "configuration_items"; "compliance_checks_monthly";
   "mean_time_to_resolution_hours"; "monthly_incidents"; "engineer_hourly_cost";
   "annual_compliance_violations"; "compliance_violation_cost";
   "annual_security_incidents"; "security_incident_cost";
   "ops_team_size"].

(** The service tags the calculator recognizes. *)
Definition recognized_tags : list string := ["cloudwatch"; "systems_manager"; "config"].

(** A sample that counts as an error spike: it has a value above 0.05. *)
Definition is_spike (p : point) : bool :=
  match p.2 with
  | Some value => py_gt value (PFloat 0.05)
  | None => false
  end.

(** The four entries of an incident dictionary. *)
Definition incident_dict (monthly_incidents annual_downtime_hours : pyval)
    : gmap string pyval :=
  list_to_map
    [("monthly_incidents", monthly_incidents);
     ("annual_downtime_hours", annual_downtime_hours);
     ("mean_time_to_resolution_hours", PInt 4);
     ("hourly_revenue_impact", PInt 10000)].

(** The sixteen entries of a collected snapshot. *)
Definition collected_snapshot (hosts : Z) (monthly_incidents annual_downtime_hours : pyval)
    : gmap string pyval :=
  list_to_map
    [("total_instances", PInt hosts);
     ("monitoring_tool_licenses", PInt (hosts * 23 * 12));
     ("monthly_incidents", monthly_incidents);
     ("annual_downtime_hours", annual_downtime_hours);
     ("mean_time_to_resolution_hours", PInt 4);
     ("hourly_revenue_impact", PInt 10000);
     ("total_metrics", PInt 150);
     ("avg_cpu_utilization", PInt 65);
     ("avg_memory_utilization", PInt 70);
     ("dashboards", PInt 15);
     ("log_volume_gb_monthly", PFloat 120);
     ("log_retention_days", PInt 30);
     ("log_ingestion_rate_gb_day", PFloat 4);
     ("ops_staff_cost", PInt 120000);
     ("engineer_hourly_cost", PInt 100);
     ("ops_team_size", PInt (Z.max 1 (hosts / 100)))].

(** A mantissa [m] and exponent [e] whose value [m * 2 ^ e] is positive and
    at least [2 ^ k].  (When [e] exceeds [k] the power is 0 and the bound
    says nothing more than [0 < m], which is then enough.) *)
Definition at_least_pow2 (k m e : Z) : Prop := 0 < m /\ 2 ^ (k - e) <= m.

(** A float that is at least [2 ^ k]: positive and finite with such a
    mantissa and exponent, or plus infinity. *)
Definition SF_at_least (k : Z) (sf : spec_float) : Prop :=
  match sf with
  | S754_infinity false => True
  | S754_finite false m e => at_least_pow2 k (Z.pos m) e
  | _ => False
  end.

(** A float that is greater than zero. *)
Definition SF_positive (sf : spec_float) : Prop :=
  match sf with
  | S754_infinity false | S754_finite false _ _ => True
  | _ => False
  end.

(** The keys [_calculate_risk_mitigation] reads. *)
Definition risk_keys : list string :=
  ["annual_compliance_violations"; "compliance_violation_cost";
   "annual_security_incidents"; "security_incident_cost"].

(** A computation whose only exception, if any, is [OverflowError]. *)
Definition only_overflow {A : Type} (r : result A) : Prop :=
  forall e, r = Raise e -> e = OverflowError.

(** * Properties *)

(** ** The error monad *)

Lemma bind_Ok {A B} (m : result A) (k : A -> result B) (b : B) :
  (m ≫= k) = Ok b <-> exists a, m = Ok a /\ k a = Ok b.
Proof.
  destruct m as [a|e]; simpl; split.
  - intros H. exists a. split; [reflexivity | exact H].
  - intros (a' & [= <-] & H). exact H.
  - discriminate.
  - intros (a' & [=] & _).
Qed.

(** Peels the successful binds of a computation known to return. *)
Ltac peel H :=
  repeat match type of H with
  | (_ ≫= _) = Ok _ =>
      let a := fresh "v" in
      let Ha := fresh "E" in
      apply bind_Ok in H as (a & Ha & H)
  end.

(** ** The numeric model on known Python results *)

Example int_to_float_rounds_to_even :
  float_of_int (2 ^ 53 + 1) = Ok 9007199254740992%float
  /\ float_of_int (2 ^ 53 + 3) = Ok 9007199254740996%float.
Proof. split; vm_compute; reflexivity. Qed.

Example int_too_large_for_float :
  float_of_int (10 ^ 400) = Raise OverflowError
  /\ py_mul (PInt (10 ^ 400)) (PFloat 0.3) = Raise OverflowError.
Proof. split; vm_compute; reflexivity. Qed.

Example true_division_of_integers :
  py_truediv (PInt 1) (PInt 3) = Ok (PFloat 0.3333333333333333)
  /\ py_truediv (PInt 0) (PInt (-5)) = Ok (PFloat neg_zero)
  /\ py_truediv (PInt 1) (PInt 0) = Raise ZeroDivisionError
  /\ py_truediv (PFloat 1) (PFloat neg_zero) = Raise ZeroDivisionError.
Proof. repeat split; vm_compute; reflexivity. Qed.

Example float_arithmetic_rounds :
  py_mul (PFloat 0.1) (PInt 3) = Ok (PFloat 0.30000000000000004)
  /\ py_mul (PFloat 1e308) (PInt 10) = Ok (PFloat infinity).
Proof. split; vm_compute; reflexivity. Qed.

Example mixed_comparison_is_exact :
  py_gt (PInt (2 ^ 53 + 1)) (PFloat 9007199254740992) = true
  /\ py_eq (PInt 1) (PFloat 1.0) = true
  /\ py_gt (PFloat nan) (PInt 0) = false
  /\ py_le (PFloat nan) (PInt 0) = false
  /\ py_eq (PFloat zero) (PFloat neg_zero) = true.
Proof. repeat split; vm_compute; reflexivity. Qed.

(** ** Comparison of Python numbers *)

Lemma Z_compare_SF_None (z : Z) (sf : spec_float) :
  Z_compare_SF z sf = None <-> sf = S754_nan.
Proof. destruct sf; simpl; split; (discriminate || reflexivity). Qed.

Lemma SFcompare_None (x y : spec_float) :
  SFcompare x y = None <-> x = S754_nan \/ y = S754_nan.
Proof.
  destruct x, y; simpl; split;
    first [ discriminate | intros [?|?]; discriminate | intros _; auto ].
Qed.

(** Only a NaN is unordered. *)
Lemma py_compare_None (a b : pyval) :
  py_compare a b = None <-> is_nan_val a \/ is_nan_val b.
Proof.
  destruct a as [x|x], b as [y|y]; simpl.
  - split; [discriminate | intros [[]|[]]].
  - rewrite Z_compare_SF_None. split; [auto | intros [[]|?]; assumption].
  - destruct (Z_compare_SF y (Prim2SF x)) eqn:E; simpl.
    + split; [discriminate |].
      intros [H|[]]. rewrite H in E. discriminate.
    + split; [| reflexivity]. intros _. left. apply Z_compare_SF_None in E. exact E.
  - apply SFcompare_None.
Qed.

Lemma py_gt_false_le (a b b' : pyval) :
  py_gt a b = false -> py_gt a b' = true -> ~ is_nan_val b -> py_le a b = true.
Proof.
  unfold py_gt, py_le. intros Hb Hb' Hnan.
  destruct (py_compare a b) as [[]|] eqn:E; try reflexivity; try discriminate.
  apply py_compare_None in E as [E|E]; [| contradiction].
  assert (py_compare a b' = None) as E' by (apply py_compare_None; auto).
  rewrite E' in Hb'. discriminate.
Qed.

Lemma py_le_gt_false (a b : pyval) : py_le a b = true -> py_gt a b = false.
Proof. unfold py_gt, py_le. destruct (py_compare a b) as [[]|]; congruence. Qed.

(** ** Float results of the cost formulas *)

Lemma arith_float_r fz ff (a : pyval) (y : float) (v : pyval) :
  arith fz ff a (PFloat y) = Ok v -> is_float v.
Proof.
  destruct a as [x|x]; simpl.
  - destruct (float_of_int x); simpl; [| discriminate].
    intros [= <-]. eexists; reflexivity.
  - intros [= <-]. eexists; reflexivity.
Qed.

Lemma arith_float_l fz ff (x : float) (b : pyval) (v : pyval) :
  arith fz ff (PFloat x) b = Ok v -> is_float v.
Proof.
  destruct b as [y|y]; simpl.
  - destruct (float_of_int y); simpl; [| discriminate].
    intros [= <-]. eexists; reflexivity.
  - intros [= <-]. eexists; reflexivity.
Qed.

Lemma line_item_float (count : pyval) (rate : float) (v : pyval) :
  line_item count rate = Ok v -> is_float v.
Proof.
  unfold line_item. intros H. peel H.
  apply arith_float_r in E as [f ->].
  eapply arith_float_l. exact H.
Qed.

Lemma systems_manager_cost_float (metrics : gmap string pyval) (v : pyval) :
  systems_manager_cost metrics = Ok v -> is_float v.
Proof.
  unfold systems_manager_cost. intros H. peel H.
  apply line_item_float in E2 as [f ->].
  eapply arith_float_r. exact H.
Qed.

(** Adding a float to the integer 0 gives that float back, except that the
    negative zero becomes the positive one. *)
Lemma zero_plus_float (f : float) :
  exists g, py_add (PInt 0) (PFloat f) = Ok (PFloat g)
            /\ same_number (PFloat g) (PFloat f).
Proof.
  exists (0 + f)%float. split; [reflexivity |].
  destruct (Prim2SF f) as [[|]| | |] eqn:E.
  2-5: left; f_equal; apply Prim2SF_inj; rewrite FloatAxioms.add_spec, E; reflexivity.
  right. unfold py_eq. simpl. rewrite FloatAxioms.add_spec, E. reflexivity.
Qed.

(** ** Membership of service tags *)

Lemma contains_true (tag : string) (services : list string) :
  contains tag services = true <-> tag ∈ services.
Proof. unfold contains. apply bool_decide_eq_true. Qed.

Lemma contains_false (tag : string) (services : list string) :
  contains tag services = false <-> tag ∉ services.
Proof. unfold contains. apply bool_decide_eq_false. Qed.

Lemma only_tag_contains (tag : string) (services : list string) :
  services <> [] -> (forall t, t ∈ services -> t = tag) ->
  contains tag services = true
  /\ forall other, other <> tag -> contains other services = false.
Proof.
  intros Hne Hall. split.
  - apply contains_true. destruct services as [|t rest]; [contradiction |].
    rewrite <- (Hall t); [left | left].
  - intros other Hother. apply contains_false. intros Hin.
    apply Hother. apply Hall. exact Hin.
Qed.

(** ** Dictionary lookups *)

Lemma get_absent (metrics : gmap string pyval) (key : string) (d : pyval) :
  metrics !! key = None -> get metrics key d = d.
Proof. unfold get. intros ->. reflexivity. Qed.

Lemma get_insert_eq (metrics : gmap string pyval) (key : string) (v d : pyval) :
  get (<[key := v]> metrics) key d = v.
Proof. unfold get. rewrite lookup_insert_eq. reflexivity. Qed.

Lemma get_insert_ne (metrics : gmap string pyval) (key key' : string) (v d : pyval) :
  key <> key' -> get (<[key := v]> metrics) key' d = get metrics key' d.
Proof. unfold get. intros H. rewrite lookup_insert_ne by exact H. reflexivity. Qed.

(** ** Rounding never goes below a representable lower bound

    The lemmas below follow the specification of binary64 rounding
    ([binary_round_aux]) far enough to bound its result from below. *)

Section Binary64Rounding.

Lemma digits2_pos_size (p : positive) : digits2_pos p = Pos.size p.
Proof. induction p; simpl; congruence. Qed.

Lemma digits2_pos_bounds (p : positive) :
  2 ^ (Z.pos (digits2_pos p) - 1) <= Z.pos p < 2 ^ Z.pos (digits2_pos p).
Proof.
  rewrite digits2_pos_size. split.
  - pose proof (Pos.size_le p) as H.
    apply Pos2Z.pos_le_pos in H. rewrite Pos2Z.inj_pow in H.
    replace (Z.pos (Pos.size p)) with (Z.succ (Z.pos (Pos.size p) - 1)) in H by lia.
    rewrite Z.pow_succ_r in H by lia.
    change (Z.pos p~0) with (2 * Z.pos p) in H. lia.
  - pose proof (Pos.size_gt p) as H.
    apply Pos2Z.pos_lt_pos in H. rewrite Pos2Z.inj_pow in H. exact H.
Qed.

Lemma shr_1_m (r : shr_record) :
  0 <= shr_m r -> shr_m (shr_1 r) = shr_m r / 2.
Proof.
  destruct r as [m r s]. simpl. intros Hm.
  destruct m as [|[p|p|]|p]; simpl; try lia.
  - reflexivity.
  - apply Z.div_unique with 1; lia.
  - apply Z.div_unique with 0; lia.
  - reflexivity.
Qed.

Lemma iter_shr_1_m (p : positive) (r : shr_record) :
  0 <= shr_m r -> shr_m (SpecFloat.iter_pos shr_1 p r) = shr_m r / 2 ^ Z.pos p.
Proof.
  revert r. induction p as [p IH|p IH|]; intros r Hr; simpl SpecFloat.iter_pos.
  - assert (H1 : 0 <= shr_m (shr_1 r)) by (rewrite shr_1_m by exact Hr; apply Z.div_pos; lia).
    assert (H2 : 0 <= shr_m (SpecFloat.iter_pos shr_1 p (shr_1 r)))
      by (rewrite IH by exact H1; apply Z.div_pos; lia).
    rewrite IH, IH, shr_1_m by assumption.
    rewrite !Z.div_div by lia. f_equal.
    rewrite <- Z.pow_add_r, <- (Z.pow_1_r 2) at 1 by lia.
    rewrite <- Z.pow_add_r by lia. f_equal. lia.
  - assert (H2 : 0 <= shr_m (SpecFloat.iter_pos shr_1 p r))
      by (rewrite IH by exact Hr; apply Z.div_pos; lia).
    rewrite IH, IH by assumption.
    rewrite !Z.div_div by lia. f_equal.
    rewrite <- Z.pow_add_r by lia. f_equal. lia.
  - rewrite shr_1_m by exact Hr. reflexivity.
Qed.

Lemma shr_m_of_loc (m : Z) (l : location) : shr_m (shr_record_of_loc m l) = m.
Proof. destruct l as [|[]]; reflexivity. Qed.

Lemma shr_spec (r : shr_record) (e n : Z) :
  0 <= shr_m r ->
  shr_m (fst (shr r e n)) = shr_m r / 2 ^ Z.max 0 n
  /\ snd (shr r e n) = e + Z.max 0 n.
Proof.
  intros Hr. destruct n as [|p|p]; simpl.
  - rewrite Z.div_1_r. split; [reflexivity | lia].
  - rewrite iter_shr_1_m by exact Hr. split; reflexivity.
  - rewrite Z.div_1_r. split; [reflexivity | lia].
Qed.

Lemma round_nearest_even_ge (m : Z) (l : location) : m <= round_nearest_even m l.
Proof. destruct l as [|[]]; simpl; try lia. destruct (Z.even m); lia. Qed.

Lemma above_base_mono (m m' e : Z) : above_base m e -> m <= m' -> above_base m' e.
Proof.
  unfold above_base. intros (H0 & H1 & H2) Hle.
  split; [lia | split; intros He].
  - specialize (H1 He). lia.
  - specialize (H2 He). lia.
Qed.

Lemma pow2_split (a b : Z) : 0 <= a -> 0 <= b -> 2 ^ (a + b) = 2 ^ a * 2 ^ b.
Proof. intros. apply Z.pow_add_r; assumption. Qed.

Lemma shr_fexp_above_base (m e : Z) (l : location) :
  above_base m e ->
  above_base (shr_m (fst (shr_fexp prec emax m e l))) (snd (shr_fexp prec emax m e l)).
Proof.
  intros (H0 & Hneg & Hpos). unfold shr_fexp.
  destruct m as [|pm|pm]; try lia.
  set (d := Z.pos (digits2_pos pm)).
  pose proof (digits2_pos_bounds pm) as [Hlo Hhi]. fold d in Hlo, Hhi.
  assert (Hd : 0 < d) by (unfold d; lia).
  set (n := fexp prec emax (Zdigits2 (Z.pos pm) + e) - e).
  destruct (shr_spec (shr_record_of_loc (Z.pos pm) l) e n) as [Hm He].
  { rewrite shr_m_of_loc. lia. }
  rewrite Hm, He, shr_m_of_loc. clear Hm He.
  destruct (Z.max_spec 0 n) as [[Hn ->]|[Hn ->]].
  2: { rewrite Z.div_1_r, Z.add_0_r. repeat split; assumption. }
  assert (Hde : 15 < d + e).
  { destruct (Z.lt_ge_cases e 0) as [He|He].
    - specialize (Hneg He).
      assert (2 ^ (15 - e) < 2 ^ d).
      { apply Z.le_lt_trans with (Z.pos pm); [| exact Hhi].
        apply Z.le_trans with (50000 * 2 ^ (- e)); [| exact Hneg].
        replace (15 - e) with (15 + - e) by lia.
        rewrite pow2_split by lia.
        apply Z.mul_le_mono_nonneg_r; [apply Z.pow_nonneg; lia | vm_compute; discriminate]. }
      apply Z.pow_lt_mono_r_iff in H; lia.
    - specialize (Hpos He).
      assert (2 ^ 52 < 2 ^ d) by lia.
      apply Z.pow_lt_mono_r_iff in H; lia. }
  assert (Hn' : n = d - 53).
  { unfold n, fexp, emin, Zdigits2. fold d. change prec with 53. change emax with 1024. lia. }
  assert (Hp : 0 < 2 ^ n) by (apply Z.pow_pos_nonneg; lia).
  assert (Hq : 2 ^ 52 <= Z.pos pm / 2 ^ n).
  { apply Z.div_le_lower_bound; [exact Hp |].
    rewrite <- pow2_split by lia. replace (n + 52) with (d - 1) by lia. exact Hlo. }
  repeat split.
  - lia.
  - intros He'. apply Z.div_le_lower_bound; [exact Hp |].
    rewrite Z.mul_comm, <- Z.mul_assoc, <- pow2_split by lia.
    replace (- (e + n) + n) with (- e) by lia. apply Hneg. lia.
  - intros _. exact Hq.
Qed.

Lemma shr_fexp_nonneg (m e : Z) (l : location) :
  0 <= m -> 0 <= shr_m (fst (shr_fexp prec emax m e l)).
Proof.
  intros Hm. unfold shr_fexp.
  destruct (shr_spec (shr_record_of_loc m l) e
              (fexp prec emax (Zdigits2 m + e) - e)) as [-> _].
  - rewrite shr_m_of_loc. exact Hm.
  - rewrite shr_m_of_loc. apply Z.div_pos; [exact Hm |]. apply Z.pow_pos_nonneg; lia.
Qed.

Lemma binary_round_aux_nonneg (m e : Z) (l : location) :
  0 <= m -> SF_nonneg (binary_round_aux prec emax false m e l).
Proof.
  intros Hm. unfold binary_round_aux.
  pose proof (shr_fexp_nonneg m e l Hm) as H1.
  destruct (shr_fexp prec emax m e l) as [mrs' e']. simpl in H1.
  pose proof (round_nearest_even_ge (shr_m mrs') (loc_of_shr_record mrs')) as H2.
  pose proof (shr_fexp_nonneg (round_nearest_even (shr_m mrs') (loc_of_shr_record mrs'))
                e' loc_Exact ltac:(lia)) as H3.
  destruct (shr_fexp prec emax _ e' loc_Exact) as [mrs'' e'']. simpl in H3.
  destruct (shr_m mrs'') as [|p|p]; [exact I | | lia].
  destruct (e'' <=? emax - prec); exact I.
Qed.

Lemma binary_round_aux_above_base (m e : Z) :
  above_base m e -> SF_above_base (binary_round_aux prec emax false m e loc_Exact).
Proof.
  intros H. unfold binary_round_aux.
  pose proof (shr_fexp_above_base m e loc_Exact H) as H1.
  destruct (shr_fexp prec emax m e loc_Exact) as [mrs' e']. simpl in H1.
  pose proof (above_base_mono _ _ _ H1
                (round_nearest_even_ge (shr_m mrs') (loc_of_shr_record mrs'))) as H2.
  pose proof (shr_fexp_above_base _ e' loc_Exact H2) as H3.
  destruct (shr_fexp prec emax _ e' loc_Exact) as [mrs'' e'']. simpl in H3.
  destruct (shr_m mrs'') as [|p|p]; try (destruct H3 as [H3 _]; lia).
  destruct (e'' <=? emax - prec); [exact H3 | exact I].
Qed.

Lemma iter_xO_pow (m d : positive) : Z.pos (Pos.iter xO m d) = Z.pos m * 2 ^ Z.pos d.
Proof.
  induction d as [|d IH] using Pos.peano_ind.
  - simpl. lia.
  - rewrite Pos.iter_succ, Pos2Z.inj_xO, IH, Pos2Z.inj_succ, Z.pow_succ_r by lia. lia.
Qed.

Lemma shl_align_spec (mx : positive) (ex ex' : Z) :
  snd (shl_align mx ex ex') = Z.min ex ex'
  /\ Z.pos (fst (shl_align mx ex ex')) = Z.pos mx * 2 ^ (ex - Z.min ex ex').
Proof.
  unfold shl_align. destruct (ex' - ex) as [|d|d] eqn:E; cbn [fst snd].
  - replace (Z.min ex ex') with ex by lia. rewrite Z.sub_diag. lia.
  - replace (Z.min ex ex') with ex by lia. rewrite Z.sub_diag. lia.
  - replace (Z.min ex ex') with ex' by lia.
    rewrite iter_xO_pow. replace (ex - ex') with (Z.pos d) by lia. lia.
Qed.

Lemma above_base_shl (m e e' : Z) :
  above_base m e -> e' <= e -> above_base (m * 2 ^ (e - e')) e'.
Proof.
  intros (H0 & Hneg & Hpos) Hle.
  assert (Hp : 0 < 2 ^ (e - e')) by (apply Z.pow_pos_nonneg; lia).
  split; [lia | split].
  - intros He'. destruct (Z.lt_ge_cases e 0) as [He|He].
    + specialize (Hneg He).
      replace (- e') with (- e + (e - e')) by lia.
      rewrite pow2_split by lia. nia.
    + specialize (Hpos He).
      replace (- e') with (e - e' - e) at 1 by lia.
      assert (2 ^ (e - e') = 2 ^ (e - e' - e) * 2 ^ e).
      { rewrite <- pow2_split by lia. f_equal. lia. }
      assert (0 < 2 ^ (e - e' - e)) by (apply Z.pow_pos_nonneg; lia).
      assert (0 < 2 ^ e) by (apply Z.pow_pos_nonneg; lia).
      assert (50000 <= 2 ^ 52) by (vm_compute; discriminate).
      rewrite H.
      apply Z.le_trans with (m * 2 ^ (e - e' - e)); [nia |].
      rewrite Z.mul_assoc. nia.
  - intros He'. specialize (Hpos ltac:(lia)). nia.
Qed.

Lemma binary_round_above_base (m : positive) (e : Z) :
  above_base (Z.pos m) e -> SF_above_base (binary_round prec emax false m e).
Proof.
  intros H. unfold binary_round.
  destruct (shl_align_spec m e (fexp prec emax (Z.pos (digits2_pos m) + e))) as [Hs Hf].
  destruct (shl_align m e _) as [mz ez]. cbn [fst snd] in Hs, Hf.
  apply binary_round_aux_above_base. rewrite Hf, Hs.
  apply above_base_shl; [exact H | lia].
Qed.

Lemma binary_round_nonneg (m : positive) (e : Z) :
  SF_nonneg (binary_round prec emax false m e).
Proof.
  unfold binary_round. destruct (shl_align m e _) as [mz ez].
  apply binary_round_aux_nonneg. lia.
Qed.

Lemma binary_normalize_nonneg (z e : Z) :
  0 <= z -> SF_nonneg (binary_normalize prec emax z e false).
Proof.
  intros Hz. destruct z as [|p|p]; simpl; [exact I | | lia].
  apply binary_round_nonneg.
Qed.

(** Adding a non-negative float to one that is at least 50000 leaves it at
    least 50000: rounding to nearest cannot go below a lower bound that is
    itself well inside the precision. *)
Lemma SFadd_above_base (x y : spec_float) :
  SF_above_base x -> SF_nonneg y -> SF_above_base (SFadd prec emax x y).
Proof.
  destruct x as [| [|] | | [|] mx ex]; cbn [SF_above_base]; try contradiction;
    destruct y as [sy | [|] | | [|] my ey]; cbn [SF_nonneg SFadd SF_above_base];
    try contradiction; try (intros; assumption).
  intros Hx _.
    destruct (shl_align_spec mx ex (Z.min ex ey)) as [_ Hfx].
    destruct (shl_align_spec my ey (Z.min ex ey)) as [_ Hfy].
    replace (Z.min ex (Z.min ex ey)) with (Z.min ex ey) in Hfx by lia.
    replace (Z.min ey (Z.min ex ey)) with (Z.min ex ey) in Hfy by lia.
    set (a := fst (shl_align mx ex (Z.min ex ey))) in *.
    set (b := fst (shl_align my ey (Z.min ex ey))) in *.
    cbn [cond_Zopp].
    change (Z.pos a + Z.pos b) with (Z.pos (a + b)). cbn [binary_normalize].
    apply binary_round_above_base.
    apply above_base_mono with (Z.pos a); [| lia].
    rewrite Hfx. apply above_base_shl; [exact Hx | lia].
Qed.

Lemma SFmul_nonneg (x : spec_float) (my : positive) (ey : Z) :
  SF_nonneg x -> SF_nonneg (SFmul prec emax x (S754_finite false my ey)).
Proof.
  destruct x as [sx | [|] | | [|] mx ex]; cbn [SF_nonneg SFmul xorb];
    try contradiction; intros _.
  - exact I.
  - exact I.
  - apply binary_round_aux_nonneg. lia.
Qed.

(** *** Integers that fit a float

    [float(z)] returns for every non-negative integer below [2 ^ 1023]. *)

Lemma round_nearest_even_le (m : Z) (l : location) : round_nearest_even m l <= m + 1.
Proof. destruct l as [|[]]; simpl; try lia. destruct (Z.even m); lia. Qed.

Lemma Zdigits2_le (m k : Z) : 0 <= k -> 0 <= m <= 2 ^ k -> Zdigits2 m <= k + 1.
Proof.
  intros Hk [H0 Hm]. destruct m as [|p|p]; cbn [Zdigits2]; try lia.
  destruct (digits2_pos_bounds p) as [Hlo _].
  assert (H : 2 ^ (Z.pos (digits2_pos p) - 1) <= 2 ^ k) by lia.
  apply Z.pow_le_mono_r_iff in H; lia.
Qed.

Lemma Zdigits2_lt (m k : Z) : 0 <= k -> 0 <= m < 2 ^ k -> Zdigits2 m <= k.
Proof.
  intros Hk [H0 Hm]. destruct m as [|p|p]; cbn [Zdigits2]; try lia.
  destruct (digits2_pos_bounds p) as [Hlo _].
  assert (H : 2 ^ (Z.pos (digits2_pos p) - 1) < 2 ^ k) by lia.
  apply Z.pow_lt_mono_r_iff in H; lia.
Qed.

Lemma Zdigits2_bound (m : Z) : 0 <= m -> 0 <= Zdigits2 m /\ m < 2 ^ Zdigits2 m.
Proof.
  intros Hm. destruct m as [|p|p]; cbn [Zdigits2]; try lia.
  destruct (digits2_pos_bounds p). lia.
Qed.

Lemma shr_fexp_spec (m e : Z) (l : location) :
  0 <= m ->
  shr_m (fst (shr_fexp prec emax m e l))
    = m / 2 ^ Z.max 0 (fexp prec emax (Zdigits2 m + e) - e)
  /\ snd (shr_fexp prec emax m e l)
     = e + Z.max 0 (fexp prec emax (Zdigits2 m + e) - e).
Proof.
  intros Hm. unfold shr_fexp.
  destruct (shr_spec (shr_record_of_loc m l) e
              (fexp prec emax (Zdigits2 m + e) - e)) as [H1 H2].
  - rewrite shr_m_of_loc. exact Hm.
  - rewrite shr_m_of_loc in H1. split; assumption.
Qed.

Lemma binary_round_aux_no_overflow (m e : Z) (l : location) :
  0 <= m -> Zdigits2 m + e <= 1023 -> e <= 970 ->
  SF_is_infinity (binary_round_aux prec emax false m e l) = false.
Proof.
  intros Hm Hd He. unfold binary_round_aux.
  destruct (Zdigits2_bound m Hm) as [HD0 HD].
  pose proof (shr_fexp_spec m e l Hm) as [Hm1 He1].
  destruct (shr_fexp prec emax m e l) as [mrs' e']. cbn [fst snd] in Hm1, He1.
  set (D := Zdigits2 m) in *.
  set (N := Z.max 0 (fexp prec emax (D + e) - e)) in *.
  assert (HN : 0 <= N) by lia.
  assert (HN' : N <= Z.max 0 (970 - e)).
  { unfold N, fexp, emin. change prec with 53. change emax with 1024. lia. }
  assert (He' : e' <= 970) by lia.
  set (m2 := round_nearest_even (shr_m mrs') (loc_of_shr_record mrs')).
  assert (Hp : 0 < 2 ^ N) by (apply Z.pow_pos_nonneg; lia).
  assert (Hm1' : 0 <= shr_m mrs') by (rewrite Hm1; apply Z.div_pos; lia).
  assert (Hm2 : 0 <= m2).
  { pose proof (round_nearest_even_ge (shr_m mrs') (loc_of_shr_record mrs')) as H.
    fold m2 in H. lia. }
  assert (Hm2' : m2 <= shr_m mrs' + 1) by apply round_nearest_even_le.
  assert (HD2 : Zdigits2 m2 + e' <= 1024).
  { destruct (Z.le_gt_cases N D) as [HND|HND].
    - assert (shr_m mrs' < 2 ^ (D - N)).
      { rewrite Hm1. apply Z.div_lt_upper_bound; [exact Hp |].
        rewrite <- pow2_split by lia. replace (N + (D - N)) with D by lia. exact HD. }
      pose proof (Zdigits2_le m2 (D - N) ltac:(lia) ltac:(lia)). lia.
    - assert (shr_m mrs' = 0).
      { rewrite Hm1. apply Z.div_small. split; [exact Hm |].
        apply Z.lt_le_trans with (2 ^ D); [exact HD |].
        apply Z.pow_le_mono_r; lia. }
      pose proof (Zdigits2_le m2 0 ltac:(lia) ltac:(change (2 ^ 0) with 1; lia)). lia. }
  pose proof (shr_fexp_spec m2 e' loc_Exact Hm2) as [Hm3 He3].
  destruct (shr_fexp prec emax m2 e' loc_Exact) as [mrs'' e''].
  cbn [fst snd] in Hm3, He3.
  assert (He'' : e'' <= 971).
  { rewrite He3. unfold fexp, emin. change prec with 53. change emax with 1024. lia. }
  destruct (shr_m mrs'') as [|p|p]; try reflexivity.
  change (emax - prec) with 971.
  destruct (Z.leb_spec e'' 971); [reflexivity | lia].
Qed.

End Binary64Rounding.

(** *** From the specification to the primitive floats *)

Lemma float_add_above_base (b x : float) :
  SF_above_base (Prim2SF b) -> SF_nonneg (Prim2SF x) ->
  SF_above_base (Prim2SF (b + x)).
Proof. intros Hb Hx. rewrite FloatAxioms.add_spec. apply SFadd_above_base; assumption. Qed.

Lemma float_mul_2000_nonneg (f : float) :
  SF_nonneg (Prim2SF f) -> SF_nonneg (Prim2SF (f * 2000)).
Proof.
  intros Hf. rewrite FloatAxioms.mul_spec.
  change (Prim2SF 2000) with (S754_finite false 8796093022208000 (-42)).
  apply SFmul_nonneg. exact Hf.
Qed.

Lemma SFldexp_nonneg (sf : spec_float) (e : Z) :
  SF_nonneg sf -> SF_nonneg (SFldexp prec emax sf e).
Proof.
  destruct sf as [s | [|] | | [|] m e']; cbn [SF_nonneg SFldexp]; try contradiction;
    intros _; try exact I.
  apply binary_round_nonneg.
Qed.

Lemma SF2Prim_nonneg (sf : spec_float) :
  SF_nonneg sf -> SF_nonneg (Prim2SF (SF2Prim sf)).
Proof.
  destruct sf as [[|] | [|] | | [|] m e]; cbn [SF_nonneg]; try contradiction; intros _.
  1-3: vm_compute; exact I.
  cbn [SF2Prim]. rewrite Z_ldexp_spec, of_uint63_spec.
  apply SFldexp_nonneg, binary_normalize_nonneg.
  apply Uint63.to_Z_bounded.
Qed.

Lemma float_of_int_nonneg (k : Z) (k' : float) :
  0 <= k -> float_of_int k = Ok k' -> SF_nonneg (Prim2SF k').
Proof.
  intros Hk. unfold float_of_int.
  pose proof (binary_normalize_nonneg k 0 Hk) as Hn.
  destruct (binary_normalize prec emax k 0 false) eqn:E; try discriminate;
    intros [= <-]; exact (SF2Prim_nonneg _ Hn).
Qed.

Lemma SF_above_baseb_spec (sf : spec_float) :
  SF_above_baseb sf = true -> SF_above_base sf.
Proof.
  destruct sf as [s | [|] | | [|] m e]; cbn [SF_above_baseb SF_above_base];
    try discriminate; try (intros _; exact I).
  intros H. split; [lia |].
  destruct (Z.ltb_spec e 0); apply Z.leb_le in H; split; intros; (exact H || lia).
Qed.

(** The pre-training component [50000 * complexity_multiplier] is one of four
    floats, each at least 50000. *)
Lemma scaled_base_above (metrics : gmap string pyval) (services : list string) :
  exists b, py_mul (PInt 50000) (PFloat (complexity_multiplier metrics services))
            = Ok (PFloat b)
            /\ SF_above_base (Prim2SF b).
Proof.
  unfold complexity_multiplier.
  destruct (py_gt _ _), (2 <? length services)%nat;
    eexists; (split; [vm_compute; reflexivity |]);
    apply SF_above_baseb_spec; vm_compute; reflexivity.
Qed.

Lemma above_base_compare (v : float) :
  SF_above_base (Prim2SF v) ->
  py_ge (PFloat v) (PInt 50000) = true
  /\ py_gt (PFloat v) (PInt 0) = true
  /\ (v =? 0)%float = false.
Proof.
  intros H. unfold py_ge, py_gt. cbn [py_compare]. rewrite FloatAxioms.eqb_spec.
  destruct (Prim2SF v) as [s | [|] | | [|] m e]; cbn [SF_above_base] in H;
    try contradiction.
  - repeat split; reflexivity.
  - destruct H as (_ & Hneg & Hpos).
    cbn [Z_compare_SF cond_Zopp]. split; [| split; [| reflexivity]].
    + destruct (Z.leb_spec 0 e) as [He|He]; cbn [fmap result_fmap option_fmap option_map].
      * specialize (Hpos He).
        assert (0 < 2 ^ e) by (apply Z.pow_pos_nonneg; lia).
        assert (50000 < 2 ^ 52) by (vm_compute; reflexivity).
        destruct (Z.compare_spec 50000 (Z.pos m * 2 ^ e)); try reflexivity. nia.
      * specialize (Hneg He).
        destruct (Z.compare_spec (50000 * 2 ^ (- e)) (Z.pos m)); try reflexivity. lia.
    + destruct (Z.leb_spec 0 e) as [He|He]; cbn [fmap result_fmap option_fmap option_map].
      * assert (0 < 2 ^ e) by (apply Z.pow_pos_nonneg; lia).
        destruct (Z.compare_spec 0 (Z.pos m * 2 ^ e)); try reflexivity; nia.
      * reflexivity.
Qed.

Lemma py_ge_zero_nonneg (f : float) :
  py_ge (PFloat f) (PInt 0) = true -> SF_nonneg (Prim2SF f).
Proof.
  unfold py_ge. cbn [py_compare].
  destruct (Prim2SF f) as [s | [|] | | [|] m e]; cbn [SF_nonneg Z_compare_SF cond_Zopp];
    try (intros _; exact I); try discriminate.
  destruct (Z.leb_spec 0 e) as [He|He]; cbn [fmap option_fmap option_map].
  - assert (0 < 2 ^ e) by (apply Z.pow_pos_nonneg; lia).
    destruct (Z.compare_spec 0 (- Z.pos m * 2 ^ e)); cbn [CompOpp];
      try discriminate; nia.
  - cbn [Z.mul]. destruct (Z.compare_spec 0 (- Z.pos m)); cbn [CompOpp];
      try discriminate; lia.
Qed.

Lemma float_of_int_raises (z : Z) (e : exn) :
  float_of_int z = Raise e -> e = OverflowError.
Proof.
  unfold float_of_int. destruct (binary_normalize prec emax z 0 false);
    try discriminate. intros [= <-]. reflexivity.
Qed.

Lemma float_of_int_2000 : float_of_int 2000 = Ok 2000%float.
Proof. vm_compute. reflexivity. Qed.

Lemma truediv_above_base (net : pyval) (v : float) :
  (v =? 0)%float = false -> py_truediv net (PFloat v) <> Raise ZeroDivisionError.
Proof.
  intros Hv. destruct net as [x|x]; cbn [py_truediv]; unfold float_div; rewrite Hv.
  - destruct (float_of_int x) eqn:E; [discriminate |].
    apply float_of_int_raises in E as ->. discriminate.
  - discriminate.
Qed.

Lemma float_of_int_returns (k : Z) :
  0 <= k < 2 ^ 1023 -> exists f, float_of_int k = Ok f.
Proof.
  intros [Hk0 Hk]. unfold float_of_int.
  assert (H : SF_is_infinity (binary_normalize prec emax k 0 false) = false).
  { destruct k as [|p|p]; cbn [binary_normalize]; try reflexivity; try lia.
    unfold binary_round.
    pose proof (Zdigits2_lt (Z.pos p) 1023 ltac:(lia) ltac:(lia)) as Hd.
    cbn [Zdigits2] in Hd.
    destruct (digits2_pos_bounds p) as [_ Hhi].
    set (d := Z.pos (digits2_pos p)) in *.
    destruct (shl_align_spec p 0 (fexp prec emax (d + 0))) as [Hs Hf].
    destruct (shl_align p 0 _) as [mz ez]. cbn [fst snd] in Hs, Hf.
    rewrite <- Hs in Hf.
    apply binary_round_aux_no_overflow; try lia.
    assert (Z.pos mz < 2 ^ (d + (0 - ez))).
    { rewrite Hf, pow2_split by lia.
      apply Zmult_lt_compat_r; [apply Z.pow_pos_nonneg; lia | exact Hhi]. }
    pose proof (Zdigits2_lt (Z.pos mz) (d + (0 - ez)) ltac:(lia) ltac:(lia)). lia. }
  destruct (binary_normalize prec emax k 0 false); try discriminate; eexists; reflexivity.
Qed.

(** ** The migration cost is at least the base cost *)

(** The outcomes of [_calculate_migration_costs] for a non-negative team
    size: a cost of at least 50000, or the overflow of an integer training
    cost. *)
Lemma migration_cost_cases (metrics : gmap string pyval)
    (services : list string) :
  (forall v, metrics !! "ops_team_size" = Some v -> py_ge v (PInt 0) = true) ->
  match _calculate_migration_costs metrics services with
  | Ok cost =>
      py_ge cost (PInt 50000) = true
      /\ py_gt cost (PInt 0) = true
      /\ forall net, py_truediv net cost <> Raise ZeroDivisionError
  | Raise e =>
      e = OverflowError
      /\ exists n, metrics !! "ops_team_size" = Some (PInt n)
                   /\ float_of_int (n * 2000) = Raise OverflowError
  end.
Proof.
  intros Hteam. unfold _calculate_migration_costs.
  destruct (scaled_base_above metrics services) as (b & Hb & Hab).
  assert (Hcase : forall x, SF_nonneg (Prim2SF x) ->
            py_ge (PFloat (b + x)) (PInt 50000) = true
            /\ py_gt (PFloat (b + x)) (PInt 0) = true
            /\ forall net, py_truediv net (PFloat (b + x)) <> Raise ZeroDivisionError).
  { intros x Hx.
    destruct (above_base_compare _ (float_add_above_base b x Hab Hx)) as (H1 & H2 & H3).
    split; [exact H1 | split; [exact H2 |]].
    intros net. apply truediv_above_base. exact H3. }
  cbv zeta. rewrite Hb.
  unfold get. destruct (metrics !! "ops_team_size") as [[n|f]|] eqn:Eteam; cbn [default from_option id].
  - specialize (Hteam _ eq_refl).
    assert (Hn : 0 <= n).
    { unfold py_ge in Hteam. cbn [py_compare] in Hteam.
      destruct (Z.compare_spec n 0); try discriminate; lia. }
    cbn [py_mul py_add arith mbind result_bind].
    destruct (float_of_int (n * 2000)) as [k|e] eqn:Ek; cbn [mbind result_bind].
    + apply Hcase. eapply float_of_int_nonneg; [| exact Ek]. lia.
    + apply float_of_int_raises in Ek as Ee. subst e.
      split; [reflexivity |]. exists n. split; [reflexivity | exact Ek].
  - specialize (Hteam _ eq_refl).
    cbn [py_mul arith]. rewrite float_of_int_2000.
    cbn [py_add arith mbind result_bind].
    apply Hcase. apply float_mul_2000_nonneg. apply py_ge_zero_nonneg. exact Hteam.
  - cbn [py_mul arith mbind result_bind].
    change (5 * 2000) with 10000.
    assert (E : float_of_int 10000 = Ok 10000%float) by (vm_compute; reflexivity).
    cbn [py_add arith]. rewrite E. cbn [mbind result_bind].
    apply Hcase. vm_compute. exact I.
Qed.

(** * The claims *)

(** ** C1: the end-to-end scenario *)

(** C1 (as stated, refuted): the list [["cloudwatch-equivalent"]] holds no tag
    the calculator recognizes, so on the scenario snapshot the target-platform
    cost is 0 and the annual savings are 751200, not 1020 and 750180. *)
Lemma scenario_literal_tag_not_recognized :
  (exists r, calculate_migration_roi scenario ["cloudwatch-equivalent"] 36 = Ok r
             /\ aws_annual_cost r = PInt 0
             /\ annual_savings r = PFloat 751200)
  /\ ~ (exists r, calculate_migration_roi scenario ["cloudwatch-equivalent"] 36 = Ok r
                  /\ py_eq (aws_annual_cost r) (PInt 1020) = true
                  /\ py_eq (annual_savings r) (PInt 750180) = true).
Proof.
  split.
  - eexists. split; [vm_compute; reflexivity |]. split; reflexivity.
  - intros (r & Hr & Haws & _).
    vm_compute in Hr. injection Hr as <-.
    vm_compute in Haws. discriminate.
Qed.

(** C1 (amended): with the tag the calculator recognizes for the metrics
    service, ["cloudwatch"], and any timeline, the scenario snapshot yields
    target-platform cost 1020, current cost 543600, operational savings 57600,
    risk mitigation 150000, annual savings 750180, migration cost 60000,
    three-year ROI (750180*3 - 60000)/60000 and break-even
    60000/(750180/12). *)
Theorem scenario_end_to_end (timeline_months : Z) :
  exists r, calculate_migration_roi scenario ["cloudwatch"] timeline_months = Ok r
    /\ aws_annual_cost r = PFloat 1020
    /\ current_annual_cost r = PFloat 543600
    /\ operational_savings r = PFloat 57600
    /\ risk_mitigation_value r = PFloat 150000
    /\ annual_savings r = PFloat 750180
    /\ migration_cost r = PFloat 60000
    /\ (n ← py_sub (PInt (750180 * 3)) (PInt 60000); py_truediv n (PInt 60000))
         = Ok (three_year_roi r)
    /\ (m ← py_truediv (PInt 750180) (PInt 12); py_truediv (PInt 60000) m)
         = Ok (break_even_months r).
Proof.
  eexists. split; [vm_compute; reflexivity |].
  repeat split; vm_compute; reflexivity.
Qed.

(** ** C2: the timeline argument *)

(** C2: the result does not depend on [timeline_months], and in every result
    the three-year savings are the annual savings times 3. *)
Theorem timeline_is_ignored (metrics : gmap string pyval)
    (services : list string) (m1 m2 : Z) :
  calculate_migration_roi metrics services m1
    = calculate_migration_roi metrics services m2
  /\ forall r, calculate_migration_roi metrics services m1 = Ok r ->
       py_mul (annual_savings r) (PInt 3) = Ok (three_year_savings r).
Proof.
  split; [reflexivity |].
  intros r H. unfold calculate_migration_roi in H.
  peel H. injection H as <-. simpl. assumption.
Qed.

Lemma timeline_is_ignored_witness :
  exists r, calculate_migration_roi scenario ["cloudwatch"] 36 = Ok r
    /\ py_mul (annual_savings r) (PInt 3) = Ok (three_year_savings r).
Proof.
  eexists. split; [vm_compute; reflexivity |].
  apply (proj2 (timeline_is_ignored scenario ["cloudwatch"] 36 12)).
  vm_compute; reflexivity.
Defined.

(** ** C3: the break-even guard *)

(** C3: in every result, when the annual savings are strictly positive the
    break-even months are the migration cost divided by (annual savings / 12),
    and when they are zero or negative the break-even months are the
    positive-infinity sentinel, which is not negative; with zero or negative
    savings the break-even expression never raises. *)
Theorem break_even_guard (metrics : gmap string pyval) (services : list string)
    (timeline_months : Z) :
  (forall r, calculate_migration_roi metrics services timeline_months = Ok r ->
     (py_gt (annual_savings r) (PInt 0) = true ->
      (monthly ← py_truediv (annual_savings r) (PInt 12);
       py_truediv (migration_cost r) monthly) = Ok (break_even_months r))
     /\ (py_le (annual_savings r) (PInt 0) = true ->
         break_even_months r = PFloat infinity
         /\ py_lt (break_even_months r) (PInt 0) = false))
  /\ (forall cost savings, py_le savings (PInt 0) = true ->
        break_even cost savings = Ok (PFloat infinity)).
Proof.
  assert (Hle : forall cost savings, py_le savings (PInt 0) = true ->
                  break_even cost savings = Ok (PFloat infinity)).
  { intros cost savings H. unfold break_even.
    rewrite (py_le_gt_false _ _ H). reflexivity. }
  split; [| exact Hle].
  intros r H. unfold calculate_migration_roi in H.
  peel H. injection H as <-. cbn [annual_savings migration_cost break_even_months].
  match goal with
  | E : break_even ?c ?s = Ok ?b |- _ => rename E into Hbe
  end.
  split.
  - intros Hpos. unfold break_even in Hbe. rewrite Hpos in Hbe. exact Hbe.
  - intros Hneg. rewrite (Hle _ _ Hneg) in Hbe. injection Hbe as <-.
    split; [reflexivity | vm_compute; reflexivity].
Qed.

Lemma break_even_guard_witness :
  exists r, calculate_migration_roi negative_savings [] 36 = Ok r
    /\ py_le (annual_savings r) (PInt 0) = true
    /\ break_even_months r = PFloat infinity
    /\ py_lt (break_even_months r) (PInt 0) = false.
Proof.
  eexists. split; [vm_compute; reflexivity |].
  split; [vm_compute; reflexivity |].
  apply (proj1 (break_even_guard negative_savings [] 36));
    vm_compute; reflexivity.
Defined.

(** The guard tests the annual savings, the division uses a twelfth of them:
    on [tiny_savings] the annual savings are 5e-324, strictly positive, while
    5e-324 / 12 rounds to 0.0, so the division of the first case raises
    [ZeroDivisionError]. *)
Remark break_even_underflow_raises :
  (c ← _calculate_current_costs tiny_savings;
   a ← _calculate_aws_costs tiny_savings [];
   o ← _calculate_operational_savings tiny_savings;
   k ← _calculate_risk_mitigation tiny_savings;
   x ← py_sub c a; x ← py_add x o; py_add x k) = Ok (PFloat 5e-324)
  /\ py_gt (PFloat 5e-324) (PInt 0) = true
  /\ py_truediv (PFloat 5e-324) (PInt 12) = Ok (PFloat 0)
  /\ calculate_migration_roi tiny_savings [] 36 = Raise ZeroDivisionError.
Proof. repeat split; vm_compute; reflexivity. Qed.

(** ** C4: the business-case label *)

(** C4: the label is "STRONG" exactly when the three-year ROI is strictly
    above 1.0, "MODERATE" exactly when it is at most 1.0 and strictly above
    0.3, and "WEAK" in every other case; the ratio 1.0 gives "MODERATE" and
    the ratio 0.3 gives "WEAK". *)
Theorem business_case_thresholds (r : roi_result) :
  let roi := three_year_roi r in
  let label := summary_business_case (generate_executive_summary r) in
  (label = "STRONG" <-> py_gt roi (PFloat 1.0) = true)
  /\ (label = "MODERATE"
      <-> py_le roi (PFloat 1.0) = true /\ py_gt roi (PFloat 0.3) = true)
  /\ (label = "WEAK"
      <-> py_gt roi (PFloat 1.0) = false
          /\ ~ (py_le roi (PFloat 1.0) = true /\ py_gt roi (PFloat 0.3) = true))
  /\ business_case (PFloat 1.0) = "MODERATE"
  /\ business_case (PFloat 0.3) = "WEAK".
Proof.
  intros roi label. unfold label. cbn [generate_executive_summary summary_business_case].
  unfold business_case. fold roi.
  assert (Hone : ~ is_nan_val (PFloat 1.0)) by (vm_compute; discriminate).
  assert (Hmid : py_gt roi (PFloat 1.0) = false -> py_gt roi (PFloat 0.3) = true ->
                 py_le roi (PFloat 1.0) = true)
    by (intros; eapply py_gt_false_le; eassumption).
  assert (Hhigh : py_le roi (PFloat 1.0) = true -> py_gt roi (PFloat 1.0) = false)
    by apply py_le_gt_false.
  destruct (py_gt roi (PFloat 1.0)) eqn:E1;
    destruct (py_gt roi (PFloat 0.3)) eqn:E2;
    destruct (py_le roi (PFloat 1.0)) eqn:E3;
    try (specialize (Hhigh eq_refl); discriminate);
    try (specialize (Hmid eq_refl eq_refl); discriminate).
  all: split; [split; intros; (reflexivity || discriminate) |].
  all: split; [split; [intros; (split; reflexivity) || discriminate
                      | intros [? ?]; reflexivity || discriminate] |].
  all: split; [split; [intros; (split; [reflexivity | intros [? ?]; discriminate])
                                || discriminate
                      | intros [? Hno]; first [reflexivity | discriminate
                                              | exfalso; apply Hno; split; reflexivity]] |].
  all: split; vm_compute; reflexivity.
Qed.

(** ** C5: the systems-manager cost and unrecognized tags *)

(** C5: when the service list holds only the systems-manager tag, the
    target-platform annual cost is the number
    (instances * patch rate * 12) + (instances * inventory rate * 12)
    + (automations * run rate * 12), with nothing from the other two
    services (and it raises exactly when that formula does); when the list
    holds only unrecognized tags, the cost is 0. *)
Theorem aws_costs_systems_manager_only (metrics : gmap string pyval)
    (services : list string) :
  let instances := get metrics "total_instances" (PInt 100) in
  let automations := get metrics "monthly_automations" (PInt 50) in
  let formula :=
    patch ← py_mul instances (PFloat 0.09); patch ← py_mul patch (PInt 12);
    inventory ← py_mul instances (PFloat 0.0033); inventory ← py_mul inventory (PInt 12);
    both ← py_add patch inventory;
    runs ← py_mul automations (PFloat 0.02); runs ← py_mul runs (PInt 12);
    py_add both runs in
  (services <> [] -> (forall t, t ∈ services -> t = "systems_manager") ->
   match formula with
   | Ok c => exists total, _calculate_aws_costs metrics services = Ok total
                           /\ same_number total c
   | Raise e => _calculate_aws_costs metrics services = Raise e
   end)
  /\ ((forall t, t ∈ services ->
         t <> "cloudwatch" /\ t <> "systems_manager" /\ t <> "config") ->
      _calculate_aws_costs metrics services = Ok (PInt 0)).
Proof.
  intros instances automations formula. split.
  - intros Hne Hall.
    destruct (only_tag_contains "systems_manager" services Hne Hall) as [Hsm Hother].
    unfold _calculate_aws_costs, add_if_selected.
    rewrite Hsm, !Hother by discriminate. simpl.
    assert (Hf : systems_manager_cost metrics = formula).
    { unfold systems_manager_cost, formula, line_item, mbind, result_bind.
      unfold aws_pricing.systems_manager.patch_management,
        aws_pricing.systems_manager.inventory, aws_pricing.systems_manager.automation.
      fold instances automations.
      repeat case_match; congruence. }
    rewrite <- Hf.
    destruct (systems_manager_cost metrics) as [c|e] eqn:E; simpl; [| reflexivity].
    apply systems_manager_cost_float in E as [f ->].
    destruct (zero_plus_float f) as (g & Hg & Hsame).
    simpl in Hg. injection Hg as <-.
    eexists. split; [reflexivity | exact Hsame].
  - intros Hall. unfold _calculate_aws_costs, add_if_selected.
    assert (Hc : forall tag, tag = "cloudwatch" \/ tag = "systems_manager" \/ tag = "config" ->
                 contains tag services = false).
    { intros tag Htag. apply contains_false. intros Hin.
      destruct (Hall tag Hin) as (H1 & H2 & H3).
      destruct Htag as [?|[?|?]]; contradiction. }
    rewrite !Hc by auto. reflexivity.
Qed.

Lemma aws_costs_systems_manager_only_witness :
  (exists total,
      _calculate_aws_costs scenario ["systems_manager"; "systems_manager"] = Ok total
      /\ same_number total (PFloat 123.96))
  /\ _calculate_aws_costs scenario ["datadog"; "cloudwatch-equivalent"] = Ok (PInt 0).
Proof.
  pose proof (aws_costs_systems_manager_only scenario
                ["systems_manager"; "systems_manager"]) as [H _].
  pose proof (aws_costs_systems_manager_only scenario
                ["datadog"; "cloudwatch-equivalent"]) as [_ H'].
  split.
  - apply H; [discriminate |].
    intros t Ht. repeat (apply elem_of_cons in Ht as [Ht|Ht]; [exact Ht |]).
    inversion Ht.
  - apply H'. intros t Ht.
    repeat (apply elem_of_cons in Ht as [->|Ht]; [repeat split; discriminate |]).
    inversion Ht.
Defined.

(** ** C6: the migration cost and its complexity multiplier *)

(** C6 (as stated, refuted): with 600 instances and three services the
    pre-training component is not 1.8 times the 50000 base.  The multiplier is
    the float product 1.0 * 1.5 * 1.2 = 1.7999999999999998, and the component
    is 89999.99999999999, not 90000. *)
Lemma pre_training_component_is_not_1_8_times_base :
  ~ (exists c c',
        py_mul (PInt 50000)
               (PFloat (complexity_multiplier six_hundred_instances three_services)) = Ok c
        /\ py_mul (PFloat 1.8) (PInt 50000) = Ok c'
        /\ py_eq c c' = true).
Proof.
  intros (c & c' & Hc & Hc' & Heq).
  vm_compute in Hc. injection Hc as <-.
  vm_compute in Hc'. injection Hc' as <-.
  vm_compute in Heq. discriminate.
Qed.

(** C6 (amended): the migration cost is 50000 * m + team size * 2000 in
    binary64 arithmetic, where m is 1.0, multiplied by 1.5 when the instance
    count exceeds 500, then by 1.2 when more than 2 services are selected.
    The pre-training component 50000 * m is therefore 50000, 75000, 60000 or,
    when both conditions hold (as with 600 instances and 3 services),
    50000 * (1.5 * 1.2) = 89999.99999999999, one unit in the last place below
    1.8 * 50000 and different from (1.5 + 0.2) * 50000 = 85000. *)
Theorem migration_cost_multiplier_composes (metrics : gmap string pyval)
    (services : list string) :
  let many_instances := py_gt (get metrics "total_instances" (PInt 0)) (PInt 500) in
  let many_services := (2 <? length services)%nat in
  let m1 := (if many_instances then 1.0 * 1.5 else 1.0)%float in
  let m := (if many_services then m1 * 1.2 else m1)%float in
  let team_size := get metrics "ops_team_size" (PInt 5) in
  complexity_multiplier metrics services = m
  /\ _calculate_migration_costs metrics services
     = (training ← py_mul team_size (PInt 2000);
        scaled ← py_mul (PInt 50000) (PFloat m);
        py_add scaled training)
  /\ py_mul (PInt 50000) (PFloat m)
     = Ok (PFloat (match many_instances, many_services with
                   | true, true => 89999.99999999999
                   | true, false => 75000
                   | false, true => 60000
                   | false, false => 50000
                   end))
  /\ complexity_multiplier six_hundred_instances three_services = (1.5 * 1.2)%float
  /\ complexity_multiplier six_hundred_instances three_services = 1.7999999999999998%float
  /\ py_mul (PInt 50000) (PFloat (complexity_multiplier six_hundred_instances three_services))
     = Ok (PFloat 89999.99999999999)
  /\ py_mul (PInt 50000) (PFloat (1.5 + 0.2)) = Ok (PFloat 85000).
Proof.
  intros many_instances many_services m1 m team_size.
  split; [reflexivity | split; [reflexivity | split]].
  - unfold m, m1. destruct many_instances, many_services; vm_compute; reflexivity.
  - repeat split; vm_compute; reflexivity.
Qed.

(** ** C7: the defaults on the empty snapshot *)

(** C7: on the empty snapshot the calculator uses its default constants:
    current annual cost 0, target-platform cost 1020 with the metrics-service
    tag, operational savings 57600, risk mitigation 150000, and migration cost
    60000 for any single selected service. *)
Theorem empty_snapshot_defaults :
  _calculate_current_costs ∅ = Ok (PFloat 0)
  /\ _calculate_aws_costs ∅ ["cloudwatch"] = Ok (PFloat 1020)
  /\ (a ← py_mul (PInt 100) (PFloat 0.30); a ← py_mul a (PInt 12);
      b ← py_mul (PInt 50) (PFloat 0.50); b ← py_mul b (PInt 12);
      c ← py_mul (PInt 10) (PFloat 3.00); c ← py_mul c (PInt 12);
      ab ← py_add a b; py_add ab c) = Ok (PFloat 1020)
  /\ _calculate_operational_savings ∅ = Ok (PFloat 57600)
  /\ _calculate_risk_mitigation ∅ = Ok (PFloat 150000)
  /\ (forall tag, _calculate_migration_costs ∅ [tag] = Ok (PFloat 60000))
  /\ (forall timeline_months, exists r,
        calculate_migration_roi ∅ ["cloudwatch"] timeline_months = Ok r
        /\ current_annual_cost r = PFloat 0
        /\ aws_annual_cost r = PFloat 1020
        /\ operational_savings r = PFloat 57600
        /\ risk_mitigation_value r = PFloat 150000
        /\ migration_cost r = PFloat 60000).
Proof.
  repeat split; try (vm_compute; reflexivity).
  intros t. eexists. split; [vm_compute; reflexivity |].
  repeat split; vm_compute; reflexivity.
Qed.

(** ** C8: the cost breakdown *)

(** C8: in every result the annual savings are the sum of the three
    cost-breakdown components, taken in order, and the infrastructure savings
    are the current annual cost minus the target-platform annual cost. *)
Theorem breakdown_sums_to_annual_savings (metrics : gmap string pyval)
    (services : list string) (timeline_months : Z) (r : roi_result) :
  calculate_migration_roi metrics services timeline_months = Ok r ->
  (s ← py_add (infrastructure_savings (cost_breakdown r))
              (productivity_gains (cost_breakdown r));
   py_add s (risk_reduction (cost_breakdown r))) = Ok (annual_savings r)
  /\ py_sub (current_annual_cost r) (aws_annual_cost r)
       = Ok (infrastructure_savings (cost_breakdown r)).
Proof.
  intros H. unfold calculate_migration_roi in H.
  peel H. injection H as <-. simpl.
  split; [| assumption].
  match goal with
  | H1 : py_sub ?c ?a = Ok ?x, H2 : py_sub ?c ?a = Ok ?y |- _ =>
      rewrite H1 in H2; injection H2 as <-
  end.
  match goal with
  | H1 : py_add _ _ = Ok ?w |- context [py_add ?i ?o] =>
      match type of H1 with py_add i o = _ => rewrite H1 end
  end.
  simpl. assumption.
Qed.

Lemma breakdown_sums_to_annual_savings_witness :
  exists r, calculate_migration_roi scenario ["cloudwatch"] 36 = Ok r
    /\ (s ← py_add (infrastructure_savings (cost_breakdown r))
                   (productivity_gains (cost_breakdown r));
        py_add s (risk_reduction (cost_breakdown r))) = Ok (annual_savings r)
    /\ py_sub (current_annual_cost r) (aws_annual_cost r)
         = Ok (infrastructure_savings (cost_breakdown r)).
Proof.
  eexists. split; [vm_compute; reflexivity |].
  apply (breakdown_sums_to_annual_savings scenario ["cloudwatch"] 36).
  vm_compute; reflexivity.
Defined.

(** ** C9: the migration cost is at least the base cost *)

(** C9: when the team size, if present, is non-negative, the migration cost
    is at least 50000 and strictly positive, and dividing by it never raises
    [ZeroDivisionError].  A cost is returned for every float team size and
    for every integer team size whose training cost stays below [2 ^ 1023];
    beyond that the training cost does not fit a float and the addition
    raises [OverflowError], before any division. *)
Theorem migration_cost_at_least_base (metrics : gmap string pyval)
    (services : list string) :
  (forall v, metrics !! "ops_team_size" = Some v -> py_ge v (PInt 0) = true) ->
  match _calculate_migration_costs metrics services with
  | Ok cost =>
      py_ge cost (PInt 50000) = true
      /\ py_gt cost (PInt 0) = true
      /\ forall net, py_truediv net cost <> Raise ZeroDivisionError
  | Raise e =>
      e = OverflowError
      /\ exists n, metrics !! "ops_team_size" = Some (PInt n)
                   /\ 2 ^ 1023 <= n * 2000
  end.
Proof.
  intros Hteam.
  pose proof (migration_cost_cases metrics services Hteam) as H.
  destruct (_calculate_migration_costs metrics services) as [cost|e]; [exact H |].
  destruct H as (-> & n & Hn & Hraise).
  split; [reflexivity |]. exists n. split; [exact Hn |].
  specialize (Hteam _ Hn). unfold py_ge in Hteam. cbn [py_compare] in Hteam.
  assert (0 <= n) by (destruct (Z.compare_spec n 0); try discriminate; lia).
  destruct (Z.lt_ge_cases (n * 2000) (2 ^ 1023)) as [Hlt|Hge]; [| exact Hge].
  destruct (float_of_int_returns (n * 2000)) as [f Hf]; [lia |].
  rewrite Hf in Hraise. discriminate.
Qed.

Lemma migration_cost_at_least_base_witness :
  (forall v, scenario !! "ops_team_size" = Some v -> py_ge v (PInt 0) = true)
  /\ exists cost, _calculate_migration_costs scenario three_services = Ok cost
       /\ py_ge cost (PInt 50000) = true
       /\ py_gt cost (PInt 0) = true
       /\ forall net, py_truediv net cost <> Raise ZeroDivisionError.
Proof.
  assert (H : forall v, scenario !! "ops_team_size" = Some v -> py_ge v (PInt 0) = true).
  { intros v Hv. vm_compute in Hv. injection Hv as <-. reflexivity. }
  split; [exact H |].
  pose proof (migration_cost_at_least_base scenario three_services H) as Hc.
  destruct (_calculate_migration_costs scenario three_services) as [cost|e] eqn:E.
  - exists cost. split; [reflexivity | exact Hc].
  - vm_compute in E. discriminate.
Defined.

(** ** C10: the two defaults of the instance count *)

(** C10: without a [total_instances] entry the systems-manager cost is
    computed for 100 instances, whereas the complexity test of the migration
    cost sees 0 instances, so the multiplier never includes the factor 1.5.
    The two defaults are observably different: on the empty snapshot the
    systems-manager cost is 123.96, and it would be 12 for 0 instances. *)
Theorem instance_count_defaults_differ (metrics : gmap string pyval)
    (services : list string) :
  metrics !! "total_instances" = None ->
  systems_manager_cost metrics
    = systems_manager_cost (<["total_instances" := PInt 100]> metrics)
  /\ _calculate_aws_costs metrics services
     = _calculate_aws_costs (<["total_instances" := PInt 100]> metrics) services
  /\ _calculate_migration_costs metrics services
     = _calculate_migration_costs (<["total_instances" := PInt 0]> metrics) services
  /\ py_gt (get metrics "total_instances" (PInt 0)) (PInt 500) = false
  /\ complexity_multiplier metrics services
     = (if (2 <? length services)%nat then 1.2 else 1.0)%float
  /\ systems_manager_cost ∅ = Ok (PFloat 123.96)
  /\ systems_manager_cost {[ "total_instances" := PInt 0 ]} = Ok (PFloat 12).
Proof.
  intros Habsent.
  assert (Hsm : systems_manager_cost metrics
                = systems_manager_cost (<["total_instances" := PInt 100]> metrics)).
  { unfold systems_manager_cost.
    rewrite get_insert_eq, get_insert_ne by discriminate.
    rewrite (get_absent _ _ _ Habsent). reflexivity. }
  assert (Hgt : py_gt (get metrics "total_instances" (PInt 0)) (PInt 500) = false)
    by (rewrite (get_absent _ _ _ Habsent); reflexivity).
  split; [exact Hsm | split; [| split; [| split; [exact Hgt | split]]]].
  - unfold _calculate_aws_costs, cloudwatch_cost, config_cost.
    rewrite <- Hsm, !get_insert_ne by discriminate. reflexivity.
  - unfold _calculate_migration_costs, complexity_multiplier.
    rewrite get_insert_eq, get_insert_ne by discriminate.
    rewrite (get_absent _ _ _ Habsent). reflexivity.
  - unfold complexity_multiplier. rewrite Hgt.
    destruct (2 <? length services)%nat; vm_compute; reflexivity.
  - split; vm_compute; reflexivity.
Qed.

Lemma instance_count_defaults_differ_witness :
  no_instance_count !! "total_instances" = None
  /\ systems_manager_cost no_instance_count
     = systems_manager_cost (<["total_instances" := PInt 100]> no_instance_count)
  /\ complexity_multiplier no_instance_count three_services = 1.2%float.
Proof.
  assert (H : no_instance_count !! "total_instances" = None) by (vm_compute; reflexivity).
  split; [exact H |].
  destruct (instance_count_defaults_differ no_instance_count three_services H)
    as (H1 & _ & _ & _ & H5 & _).
  split; [exact H1 | exact H5].
Defined.

(** * Further properties *)

(** ** Service lists *)

Lemma contains_ext (tag : string) (s1 s2 : list string) :
  (tag ∈ s1 <-> tag ∈ s2) -> contains tag s1 = contains tag s2.
Proof. intros H. unfold contains. apply bool_decide_ext. exact H. Qed.

(** X1: the target-platform cost depends on the service list only through
    which of the three recognized tags occur in it: order, repetitions and
    unrecognized tags make no difference. *)
Theorem aws_costs_depend_on_membership (metrics : gmap string pyval)
    (s1 s2 : list string) :
  (forall tag, tag ∈ recognized_tags -> (tag ∈ s1 <-> tag ∈ s2)) ->
  _calculate_aws_costs metrics s1 = _calculate_aws_costs metrics s2.
Proof.
  intros H. unfold _calculate_aws_costs, add_if_selected.
  rewrite (contains_ext "cloudwatch" s1 s2), (contains_ext "systems_manager" s1 s2),
    (contains_ext "config" s1 s2); [reflexivity | ..];
    apply H; unfold recognized_tags; repeat constructor.
Qed.

Lemma aws_costs_depend_on_membership_witness :
  _calculate_aws_costs scenario ["config"; "datadog"; "cloudwatch"; "config"]
  = _calculate_aws_costs scenario ["cloudwatch"; "config"].
Proof.
  apply aws_costs_depend_on_membership.
  intros tag Htag. unfold recognized_tags in Htag.
  apply list_elem_of_In in Htag. simpl in Htag.
  destruct Htag as [<-|[<-|[<-|[]]]]; split; intros Hin;
    first [ solve [repeat constructor]
          | apply (bool_decide_pack _) in Hin; vm_compute in Hin; destruct Hin ].
Defined.

(** X2: the migration cost depends on the service list only through its
    length, so repeated and unrecognized entries count towards the
    "more than 2 services" factor: three copies of any tag cost 1.2 times
    the complexity of one. *)
Theorem migration_costs_depend_on_length (metrics : gmap string pyval)
    (s1 s2 : list string) :
  (length s1 = length s2 ->
   _calculate_migration_costs metrics s1 = _calculate_migration_costs metrics s2)
  /\ (forall tag,
        complexity_multiplier metrics [tag; tag; tag]
        = (complexity_multiplier metrics [tag] * 1.2)%float).
Proof.
  split.
  - intros H. unfold _calculate_migration_costs, complexity_multiplier.
    rewrite H. reflexivity.
  - intros tag. reflexivity.
Qed.

Lemma migration_costs_depend_on_length_witness :
  _calculate_migration_costs scenario ["a"; "b"; "c"]
  = _calculate_migration_costs scenario three_services.
Proof.
  apply (proj1 (migration_costs_depend_on_length scenario ["a"; "b"; "c"] three_services)).
  reflexivity.
Defined.

(** ** Keys the calculator does not read *)

Lemma get_insert_other (metrics : gmap string pyval) (key key' : string) (v d : pyval) :
  key ∉ read_keys -> key' ∈ read_keys ->
  get (<[key := v]> metrics) key' d = get metrics key' d.
Proof.
  intros Hk Hk'. apply get_insert_ne. intros ->. contradiction.
Qed.

Lemma get_delete_other (metrics : gmap string pyval) (key key' : string) (d : pyval) :
  key ∉ read_keys -> key' ∈ read_keys ->
  get (delete key metrics) key' d = get metrics key' d.
Proof.
  intros Hk Hk'. unfold get. rewrite lookup_delete_ne; [reflexivity |].
  intros ->. contradiction.
Qed.

(** Two snapshots that agree on every key the calculator reads. *)
Lemma calculate_agree (m1 m2 : gmap string pyval) (services : list string)
    (timeline_months : Z) :
  (forall key d, key ∈ read_keys -> get m1 key d = get m2 key d) ->
  calculate_migration_roi m1 services timeline_months
  = calculate_migration_roi m2 services timeline_months.
Proof.
  intros H.
  assert (HF : Forall (fun key => forall d, get m1 key d = get m2 key d) read_keys).
  { apply Forall_forall. intros key Hkey d. apply H. exact Hkey. }
  unfold calculate_migration_roi, _calculate_current_costs, _calculate_aws_costs,
    cloudwatch_cost, systems_manager_cost, config_cost, _calculate_operational_savings,
    _calculate_risk_mitigation, _calculate_migration_costs, complexity_multiplier.
  unfold read_keys in HF.
  repeat match type of HF with
         | Forall _ (_ :: _) =>
             let Hk := fresh "Hk" in
             apply Forall_cons in HF as [Hk HF]; rewrite ?Hk; clear Hk
         end.
  reflexivity.
Qed.

(** X4: the result depends on the snapshot only through the keys the
    calculator reads: setting or removing any other key (such as the
    collector's [avg_cpu_utilization] or [log_retention_days]) changes
    nothing. *)
Theorem unread_keys_are_ignored (metrics : gmap string pyval) (key : string)
    (v : pyval) (services : list string) (timeline_months : Z) :
  key ∉ read_keys ->
  calculate_migration_roi (<[key := v]> metrics) services timeline_months
  = calculate_migration_roi metrics services timeline_months
  /\ calculate_migration_roi (delete key metrics) services timeline_months
     = calculate_migration_roi metrics services timeline_months.
Proof.
  intros Hkey. split; apply calculate_agree; intros key' d Hkey'.
  - apply get_insert_other; assumption.
  - apply get_delete_other; assumption.
Qed.

Lemma unread_keys_are_ignored_witness :
  calculate_migration_roi (<["avg_cpu_utilization" := PInt 65]> scenario) three_services 36
  = calculate_migration_roi scenario three_services 36.
Proof.
  apply (unread_keys_are_ignored scenario "avg_cpu_utilization" (PInt 65) three_services 36).
  intros Hin. apply (bool_decide_pack _) in Hin. vm_compute in Hin. destruct Hin.
Defined.

(** ** Single services *)

Lemma cloudwatch_cost_float (metrics : gmap string pyval) (v : pyval) :
  cloudwatch_cost metrics = Ok v -> is_float v.
Proof.
  unfold cloudwatch_cost. intros H. peel H.
  apply line_item_float in E2 as [f ->].
  eapply arith_float_r. exact H.
Qed.

Lemma config_cost_float (metrics : gmap string pyval) (v : pyval) :
  config_cost metrics = Ok v -> is_float v.
Proof.
  unfold config_cost. intros H. peel H.
  apply line_item_float in E0 as [f ->].
  eapply arith_float_r. exact H.
Qed.

(** The total after one selected service: the integer 0 plus its cost. *)
Lemma zero_plus_cost (cost : result pyval) :
  (forall v, cost = Ok v -> is_float v) ->
  match cost with
  | Ok c => exists total, (c ← cost; py_add (PInt 0) c) = Ok total /\ same_number total c
  | Raise e => (c ← cost; py_add (PInt 0) c) = Raise e
  end.
Proof.
  intros Hfloat. destruct cost as [c|e]; [| reflexivity].
  destruct (Hfloat c eq_refl) as [f ->].
  destruct (zero_plus_float f) as (g & Hg & Hsame).
  exists (PFloat g). split; [exact Hg | exact Hsame].
Qed.

(** X3: when the service list holds only the ["cloudwatch"] tag, the
    target-platform cost is the number (metrics * 0.30 * 12)
    + (log volume * 0.50 * 12) + (dashboards * 3.00 * 12) with the defaults
    100, 50 and 10; when it holds only the config tag, it is
    (configuration items * 0.003 * 12) + (rule evaluations * 0.001 * 12) with
    the defaults 500 and 1000.  Nothing is added for the other services, and
    the computation raises exactly when the formula does. *)
Theorem aws_costs_single_service (metrics : gmap string pyval) (services : list string) :
  let metrics_count := get metrics "total_metrics" (PInt 100) in
  let log_volume_gb := get metrics "log_volume_gb_monthly" (PInt 50) in
  let dashboards := get metrics "dashboards" (PInt 10) in
  let config_items := get metrics "configuration_items" (PInt 500) in
  let rule_evaluations := get metrics "compliance_checks_monthly" (PInt 1000) in
  let cloudwatch_formula :=
    a ← py_mul metrics_count (PFloat 0.30); a ← py_mul a (PInt 12);
    b ← py_mul log_volume_gb (PFloat 0.50); b ← py_mul b (PInt 12);
    ab ← py_add a b;
    c ← py_mul dashboards (PFloat 3.00); c ← py_mul c (PInt 12);
    py_add ab c in
  let config_formula :=
    a ← py_mul config_items (PFloat 0.003); a ← py_mul a (PInt 12);
    b ← py_mul rule_evaluations (PFloat 0.001); b ← py_mul b (PInt 12);
    py_add a b in
  services <> [] ->
  ((forall t, t ∈ services -> t = "cloudwatch") ->
   match cloudwatch_formula with
   | Ok c => exists total, _calculate_aws_costs metrics services = Ok total
                           /\ same_number total c
   | Raise e => _calculate_aws_costs metrics services = Raise e
   end)
  /\ ((forall t, t ∈ services -> t = "config") ->
      match config_formula with
      | Ok c => exists total, _calculate_aws_costs metrics services = Ok total
                              /\ same_number total c
      | Raise e => _calculate_aws_costs metrics services = Raise e
      end).
Proof.
  intros metrics_count log_volume_gb dashboards config_items rule_evaluations
    cloudwatch_formula config_formula Hne.
  split; intros Hall.
  - destruct (only_tag_contains "cloudwatch" services Hne Hall) as [Hcw Hother].
    assert (Hf : cloudwatch_cost metrics = cloudwatch_formula).
    { unfold cloudwatch_cost, cloudwatch_formula, line_item, mbind, result_bind.
      unfold aws_pricing.cloudwatch.metrics, aws_pricing.cloudwatch.logs_ingestion,
        aws_pricing.cloudwatch.dashboard.
      fold metrics_count log_volume_gb dashboards.
      repeat case_match; congruence. }
    pose proof (zero_plus_cost (cloudwatch_cost metrics) (cloudwatch_cost_float metrics)) as H.
    rewrite <- Hf.
    unfold _calculate_aws_costs, add_if_selected.
    rewrite Hcw, !Hother by discriminate.
    destruct (cloudwatch_cost metrics) as [c|e]; [| exact H].
    destruct H as (total & Ht & Hsame). exists total.
    split; [| exact Hsame]. rewrite Ht. reflexivity.
  - destruct (only_tag_contains "config" services Hne Hall) as [Hcfg Hother].
    assert (Hf : config_cost metrics = config_formula).
    { unfold config_cost, config_formula, line_item, mbind, result_bind.
      unfold aws_pricing.config.configuration_items, aws_pricing.config.rules.
      fold config_items rule_evaluations.
      repeat case_match; congruence. }
    pose proof (zero_plus_cost (config_cost metrics) (config_cost_float metrics)) as H.
    rewrite <- Hf.
    unfold _calculate_aws_costs, add_if_selected.
    rewrite Hcfg, !Hother by discriminate.
    destruct (config_cost metrics) as [c|e]; [| exact H].
    destruct H as (total & Ht & Hsame). exists total.
    split; [| exact Hsame]. cbn [mbind result_bind] in Ht |- *. rewrite Ht. reflexivity.
Qed.

Lemma aws_costs_single_service_witness :
  (exists total, _calculate_aws_costs scenario ["cloudwatch"] = Ok total
                 /\ same_number total (PFloat 1020))
  /\ (exists total, _calculate_aws_costs scenario ["config"; "config"] = Ok total
                    /\ same_number total (PFloat 30)).
Proof.
  split.
  - apply (aws_costs_single_service scenario ["cloudwatch"]); [discriminate |].
    intros t Ht. apply elem_of_cons in Ht as [Ht|Ht]; [exact Ht | inversion Ht].
  - apply (aws_costs_single_service scenario ["config"; "config"]); [discriminate |].
    intros t Ht. repeat (apply elem_of_cons in Ht as [Ht|Ht]; [exact Ht |]).
    inversion Ht.
Defined.

(** ** The collector *)

Lemma count_spikes_all_present (error_points : list point) :
  (forall p, p ∈ error_points -> p.2 <> None) ->
  count_spikes error_points = Some (Z.of_nat (length (filter is_spike error_points))).
Proof.
  induction error_points as [|[ts [value|]] rest IH]; intros Hall.
  - reflexivity.
  - cbn [count_spikes]. rewrite IH.
    + cbn [mbind option_bind]. f_equal.
      rewrite filter_cons.
      case_decide as Hd; unfold is_spike in Hd; cbn [snd] in Hd;
        destruct (py_gt value (PFloat 0.05)); try contradiction;
        cbn [length]; try lia.
      exfalso. apply Hd. exact I.
    + intros p Hp. apply Hall. right. exact Hp.
  - exfalso. apply (Hall (ts, None)); [left | reflexivity].
Qed.

Lemma count_spikes_missing_value (error_points : list point) :
  (exists p, p ∈ error_points /\ p.2 = None) -> count_spikes error_points = None.
Proof.
  induction error_points as [|[ts [value|]] rest IH]; intros (p & Hp & Hnone).
  - inversion Hp.
  - cbn [count_spikes]. rewrite IH; [reflexivity |].
    apply elem_of_cons in Hp as [->|Hp]; [discriminate |].
    exists p. split; assumption.
  - reflexivity.
Qed.

Lemma incident_estimate_dict (incidents : Z) :
  incident_estimate incidents = incident_dict (PInt (incidents / 12)) (PInt (incidents * 2)).
Proof. reflexivity. Qed.

Lemma incident_fallback_dict : incident_fallback = incident_dict (PInt 20) (PInt 48).
Proof. reflexivity. Qed.

Lemma incident_dict_lookup (monthly downtime : pyval) :
  incident_dict monthly downtime !! "monthly_incidents" = Some monthly
  /\ incident_dict monthly downtime !! "annual_downtime_hours" = Some downtime.
Proof. split; vm_compute; reflexivity. Qed.

Lemma log_metrics_value :
  _get_log_metrics
  = Ok (list_to_map [("log_volume_gb_monthly", PFloat 120);
                     ("log_retention_days", PInt 30);
                     ("log_ingestion_rate_gb_day", PFloat 4)]).
Proof. vm_compute. reflexivity. Qed.

Lemma collect_from_incident_dict (hosts : nat) (error_query : query_outcome)
    (performance_queries : query_outcome * query_outcome) (monthly downtime : pyval) :
  _get_incident_data error_query = incident_dict monthly downtime ->
  collect_infrastructure_metrics hosts error_query performance_queries
  = Ok (collected_snapshot (Z.of_nat hosts) monthly downtime).
Proof.
  intros H. unfold collect_infrastructure_metrics. rewrite H, log_metrics_value.
  reflexivity.
Qed.

(** What [_get_incident_data] returns, by the outcome of the query. *)
Lemma count_spikes_bounds (error_points : list point) (incidents : Z) :
  count_spikes error_points = Some incidents ->
  0 <= incidents <= Z.of_nat (length error_points).
Proof.
  revert incidents.
  induction error_points as [|[ts [value|]] rest IH]; intros incidents E;
    cbn [count_spikes] in E.
  - injection E as <-. cbn [length]. lia.
  - destruct (count_spikes rest) as [n|]; cbn [mbind option_bind] in E; [| discriminate].
    specialize (IH n eq_refl). injection E as <-. cbn [length].
    destruct (py_gt value (PFloat 0.05)); lia.
  - discriminate.
Qed.

Lemma incident_data_cases (error_query : query_outcome) :
  _get_incident_data error_query = incident_fallback
  \/ exists incidents,
       _get_incident_data error_query = incident_estimate incidents
       /\ match error_query with
          | QueryReturned (error_points :: _) =>
              0 <= incidents <= Z.of_nat (length error_points)
          | _ => incidents = 24
          end.
Proof.
  destruct error_query as [|[|error_points rest]]; cbn [_get_incident_data].
  - left. reflexivity.
  - right. exists 24. split; reflexivity.
  - destruct (count_spikes error_points) as [incidents|] eqn:E; [right | left; reflexivity].
    exists incidents. split; [reflexivity |].
    apply count_spikes_bounds. exact E.
Qed.

(** X5: a response with a first series all of whose samples have a value
    gives the number of samples above 0.05 as incidents, twice that as annual
    downtime hours and a twelfth of it, rounded down, as monthly incidents;
    the series after the first are not looked at. *)
Theorem incident_data_from_response (error_points : list point)
    (more_series : list (list point)) :
  (forall p, p ∈ error_points -> p.2 <> None) ->
  let incidents := Z.of_nat (length (filter is_spike error_points)) in
  let data := _get_incident_data (QueryReturned (error_points :: more_series)) in
  data = incident_estimate incidents
  /\ data !! "annual_downtime_hours" = Some (PInt (2 * incidents))
  /\ data !! "monthly_incidents" = Some (PInt (incidents / 12))
  /\ 0 <= incidents <= Z.of_nat (length error_points)
  /\ 24 * (incidents / 12) <= 2 * incidents < 24 * (incidents / 12) + 24
  /\ data = _get_incident_data (QueryReturned [error_points]).
Proof.
  intros Hall incidents data.
  assert (Hdata : data = incident_estimate incidents).
  { unfold data. cbn [_get_incident_data].
    rewrite (count_spikes_all_present _ Hall). reflexivity. }
  split; [exact Hdata |].
  rewrite Hdata, incident_estimate_dict.
  destruct (incident_dict_lookup (PInt (incidents / 12)) (PInt (incidents * 2))) as [Hm Hd].
  split; [rewrite Hd; do 2 f_equal; lia |].
  split; [exact Hm |].
  split.
  - unfold incidents. split; [lia |]. apply inj_le. apply length_filter.
  - split.
    + pose proof (Z.div_mod incidents 12 ltac:(lia)).
      pose proof (Z.mod_pos_bound incidents 12 ltac:(lia)). lia.
    + rewrite <- incident_estimate_dict, <- Hdata. unfold data.
      cbn [_get_incident_data]. reflexivity.
Qed.

Lemma incident_data_from_response_witness :
  _get_incident_data
    (QueryReturned [[(PInt 1, Some (PFloat 0.10)); (PInt 2, Some (PFloat 0.01))]; []])
  !! "annual_downtime_hours" = Some (PInt 2).
Proof.
  apply (incident_data_from_response
           [(PInt 1, Some (PFloat 0.10)); (PInt 2, Some (PFloat 0.01))] [[]]).
  intros p Hp.
  repeat (apply elem_of_cons in Hp as [->|Hp]; [discriminate |]).
  inversion Hp.
Defined.

(** X6: when the query raises, or a sample of the first series has no
    value, the fixed fallback is returned: 20 monthly incidents and 48 annual
    downtime hours.  No response can produce that dictionary: every estimate
    with 48 downtime hours has 2 monthly incidents. *)
Theorem incident_data_fallback (error_points : list point)
    (more_series : list (list point)) (incidents : Z) :
  _get_incident_data QueryRaised = incident_fallback
  /\ ((exists p, p ∈ error_points /\ p.2 = None) ->
      _get_incident_data (QueryReturned (error_points :: more_series))
      = incident_fallback)
  /\ incident_fallback !! "monthly_incidents" = Some (PInt 20)
  /\ incident_fallback !! "annual_downtime_hours" = Some (PInt 48)
  /\ incident_estimate incidents <> incident_fallback
  /\ _get_incident_data (QueryReturned []) = incident_estimate 24.
Proof.
  split; [reflexivity |].
  split.
  { intros H. cbn [_get_incident_data].
    rewrite (count_spikes_missing_value _ H). reflexivity. }
  split; [reflexivity |]. split; [reflexivity |].
  split; [| reflexivity].
  rewrite incident_estimate_dict, incident_fallback_dict. intros Heq.
  destruct (incident_dict_lookup (PInt (incidents / 12)) (PInt (incidents * 2))) as [Hm Hd].
  destruct (incident_dict_lookup (PInt 20) (PInt 48)) as [Hm' Hd'].
  rewrite Heq in Hm, Hd. rewrite Hm in Hm'. rewrite Hd in Hd'.
  injection Hm' as Hm'. injection Hd' as Hd'.
  assert (incidents = 24) by lia. subst incidents. discriminate Hm'.
Qed.

Lemma incident_data_fallback_witness :
  _get_incident_data (QueryReturned [[(PInt 1, Some (PFloat 0.10)); (PInt 2, None)]])
  = incident_fallback.
Proof.
  apply (incident_data_fallback [(PInt 1, Some (PFloat 0.10)); (PInt 2, None)] [] 0).
  exists (PInt 2, None). split; [right; left | reflexivity].
Defined.

Lemma incident_data_shape (error_query : query_outcome) :
  exists monthly downtime,
    _get_incident_data error_query = incident_dict (PInt monthly) (PInt downtime)
    /\ 0 <= monthly /\ 0 <= downtime
    /\ match error_query with
       | QueryReturned (error_points :: _) =>
           monthly <= Z.max 20 (Z.of_nat (length error_points))
           /\ downtime <= Z.max 48 (2 * Z.of_nat (length error_points))
       | _ => monthly <= 20 /\ downtime <= 48
       end.
Proof.
  destruct (incident_data_cases error_query) as [H|(incidents & H & Hb)].
  - exists 20, 48. rewrite H, incident_fallback_dict.
    split; [reflexivity |]. split; [lia |]. split; [lia |].
    destruct error_query as [|[|? ?]]; lia.
  - exists (incidents / 12), (incidents * 2). rewrite H, incident_estimate_dict.
    split; [reflexivity |].
    assert (0 <= incidents) by (destruct error_query as [|[|? ?]]; lia).
    assert (0 <= incidents / 12) by (apply Z.div_pos; lia).
    assert (incidents / 12 <= incidents) by (apply Z.div_le_upper_bound; lia).
    split; [lia |]. split; [lia |].
    destruct error_query as [|[|? ?]]; try lia;
      subst incidents; split; vm_compute; discriminate.
Qed.


(** ** Rounding never turns a float of at least [2 ^ k] into a smaller one *)

Section RoundingAboveAPower.

Variable k : Z.
Hypothesis k_representable : -1074 <= k.

Lemma pow2_le_div (a n m : Z) :
  0 <= n <= a -> 2 ^ a <= m -> 2 ^ (a - n) <= m / 2 ^ n.
Proof.
  intros Hn Hm.
  apply Z.div_le_lower_bound; [apply Z.pow_pos_nonneg; lia |].
  rewrite <- pow2_split by lia. replace (n + (a - n)) with a by lia. exact Hm.
Qed.

Lemma shr_fexp_at_least (m e : Z) (l : location) :
  at_least_pow2 k m e ->
  at_least_pow2 k (shr_m (fst (shr_fexp prec emax m e l)))
                  (snd (shr_fexp prec emax m e l)).
Proof.
  intros [H0 Hk].
  destruct (shr_fexp_spec m e l ltac:(lia)) as [-> ->].
  destruct m as [|pm|pm]; try lia.
  cbn [Zdigits2].
  set (d := Z.pos (digits2_pos pm)).
  pose proof (digits2_pos_bounds pm) as [Hlo _]. fold d in Hlo.
  assert (Hd : 0 < d) by (unfold d; lia).
  set (n := Z.max 0 (fexp prec emax (d + e) - e)).
  assert (Hn : n = Z.max 0 (Z.max (d - 53) (-1074 - e))).
  { unfold n, fexp, emin. change prec with 53. change emax with 1024. lia. }
  clearbody n.
  destruct (Z.le_gt_cases (d - 1) (k - e)) as [Hc|Hc].
  - (* the bound is the larger power *)
    assert (Hq : 2 ^ (k - e - n) <= Z.pos pm / 2 ^ n) by (apply pow2_le_div; lia).
    split.
    + apply Z.lt_le_trans with (2 ^ (k - e - n)); [apply Z.pow_pos_nonneg; lia | exact Hq].
    + replace (k - (e + n)) with (k - e - n) by lia. exact Hq.
  - assert (Hq : 2 ^ (d - 1 - n) <= Z.pos pm / 2 ^ n) by (apply pow2_le_div; lia).
    split.
    + apply Z.lt_le_trans with (2 ^ (d - 1 - n)); [apply Z.pow_pos_nonneg; lia | exact Hq].
    + apply Z.le_trans with (2 ^ (d - 1 - n)); [| exact Hq].
      destruct (Z.lt_ge_cases (k - (e + n)) 0) as [Hneg|Hpos].
      * rewrite Z.pow_neg_r by exact Hneg. apply Z.pow_nonneg. lia.
      * apply Z.pow_le_mono_r; lia.
Qed.

Lemma at_least_pow2_mono (m m' e : Z) :
  at_least_pow2 k m e -> m <= m' -> at_least_pow2 k m' e.
Proof. unfold at_least_pow2. lia. Qed.

Lemma binary_round_aux_at_least (m e : Z) (l : location) :
  at_least_pow2 k m e -> SF_at_least k (binary_round_aux prec emax false m e l).
Proof.
  intros H. unfold binary_round_aux.
  pose proof (shr_fexp_at_least m e l H) as H1.
  destruct (shr_fexp prec emax m e l) as [mrs' e']. cbn [fst snd] in H1.
  pose proof (at_least_pow2_mono _ _ _ H1
                (round_nearest_even_ge (shr_m mrs') (loc_of_shr_record mrs'))) as H2.
  pose proof (shr_fexp_at_least _ e' loc_Exact H2) as H3.
  destruct (shr_fexp prec emax _ e' loc_Exact) as [mrs'' e'']. cbn [fst snd] in H3.
  destruct (shr_m mrs'') as [|p|p]; try (destruct H3 as [H3 _]; lia).
  destruct (e'' <=? emax - prec); [exact H3 | exact I].
Qed.

Lemma at_least_pow2_shl (m e e' : Z) :
  at_least_pow2 k m e -> e' <= e -> at_least_pow2 k (m * 2 ^ (e - e')) e'.
Proof.
  intros [H0 Hk] Hle.
  assert (Hp : 0 < 2 ^ (e - e')) by (apply Z.pow_pos_nonneg; lia).
  split; [lia |].
  destruct (Z.lt_ge_cases (k - e) 0) as [Hneg|Hpos].
  - apply Z.le_trans with (2 ^ (e - e')); [| nia].
    destruct (Z.lt_ge_cases (k - e') 0) as [Hneg'|Hpos'].
    + rewrite Z.pow_neg_r by exact Hneg'. lia.
    + apply Z.pow_le_mono_r; lia.
  - replace (k - e') with (k - e + (e - e')) by lia.
    rewrite pow2_split by lia. nia.
Qed.

Lemma binary_round_at_least (m : positive) (e : Z) :
  at_least_pow2 k (Z.pos m) e -> SF_at_least k (binary_round prec emax false m e).
Proof.
  intros H. unfold binary_round.
  destruct (shl_align_spec m e (fexp prec emax (Z.pos (digits2_pos m) + e))) as [Hs Hf].
  destruct (shl_align m e _) as [mz ez]. cbn [fst snd] in Hs, Hf.
  apply binary_round_aux_at_least. rewrite Hf, Hs.
  apply at_least_pow2_shl; [exact H | lia].
Qed.

End RoundingAboveAPower.

Lemma binary_round_aux_negative (m e : Z) (l : location) :
  ~ SF_positive (binary_round_aux prec emax true m e l).
Proof.
  unfold binary_round_aux.
  destruct (shr_fexp prec emax m e l) as [mrs' e'].
  destruct (shr_fexp prec emax _ e' loc_Exact) as [mrs'' e''].
  destruct (shr_m mrs'') as [|p|p]; cbn [SF_positive]; try tauto.
  destruct (e'' <=? emax - prec); cbn [SF_positive]; tauto.
Qed.

Lemma binary_round_negative (m : positive) (e : Z) :
  ~ SF_positive (binary_round prec emax true m e).
Proof.
  unfold binary_round. destruct (shl_align m e _) as [mz ez].
  apply binary_round_aux_negative.
Qed.

Lemma valid_binary_bounds (s : bool) (m : positive) (e : Z) :
  valid_binary (S754_finite s m e) = true ->
  Z.pos (digits2_pos m) <= 53 /\ Z.pos m < 2 ^ 53 /\ -1074 <= e.
Proof.
  cbn [SpecFloat.valid_binary]. unfold bounded, canonical_mantissa, fexp, emin.
  change prec with 53. change emax with 1024.
  intros H. apply andb_prop in H as [H _]. apply Z.eqb_eq in H.
  assert (Hd : Z.pos (digits2_pos m) <= 53) by lia.
  split; [exact Hd | split; [| lia]].
  destruct (digits2_pos_bounds m) as [_ Hhi].
  apply Z.lt_le_trans with (2 ^ Z.pos (digits2_pos m)); [exact Hhi |].
  apply Z.pow_le_mono_r; lia.
Qed.

(** Adding 150000.0 to any float gives a float that, when it is positive, is
    at least [2 ^ -36]: the sum of the two is a multiple of the smaller
    unit, and an addend small enough to have a unit below [2 ^ -36] is too
    small to cancel 150000. *)
Lemma SFadd_150000_at_least (w : spec_float) :
  valid_binary w = true ->
  SF_positive (SFadd prec emax w (S754_finite false 5153960755200000 (-35))) ->
  SF_at_least (-36) (SFadd prec emax w (S754_finite false 5153960755200000 (-35))).
Proof.
  intros Hv.
  destruct w as [sw | sw | | sw mw ew]; cbn [SFadd].
  - intros _. cbn [SF_at_least]. split; [lia | vm_compute; discriminate].
  - destruct sw; cbn [SF_positive SF_at_least]; tauto.
  - cbn [SF_positive]. tauto.
  - destruct (valid_binary_bounds _ _ _ Hv) as (_ & Hmw & Hew).
    set (ez := Z.min ew (-35)).
    destruct (shl_align_spec mw ew ez) as [_ Ha].
    destruct (shl_align_spec 5153960755200000 (-35) ez) as [_ Hb].
    replace (Z.min ew ez) with ez in Ha by lia.
    replace (Z.min (-35) ez) with ez in Hb by lia.
    set (a := fst (shl_align mw ew ez)) in *.
    set (b := fst (shl_align 5153960755200000 (-35) ez)) in *.
    cbn [cond_Zopp].
    assert (Hz : 0 < cond_Zopp sw (Z.pos a) + Z.pos b ->
                 at_least_pow2 (-36) (cond_Zopp sw (Z.pos a) + Z.pos b) ez).
    { intros Hpos. split; [exact Hpos |].
      destruct (Z.le_gt_cases (-36) ew) as [Hc|Hc].
      - destruct (Z.eq_dec (-36 - ez) 0) as [E|E].
        + rewrite E. change (2 ^ 0) with 1. lia.
        + rewrite Z.pow_neg_r by lia. lia.
      - assert (Eez : ez = ew) by lia.
        rewrite Eez, Z.sub_diag in Ha. change (2 ^ 0) with 1 in Ha.
        rewrite Eez in Hb |- *.
        set (P := 2 ^ (-36 - ew)).
        assert (HP : 2 <= P).
        { change 2 with (2 ^ 1) at 1. apply Z.pow_le_mono_r; lia. }
        assert (E2 : 2 ^ (-35 - ew) = 2 * P).
        { unfold P. replace (-35 - ew) with (1 + (-36 - ew)) by lia.
          rewrite pow2_split by lia. reflexivity. }
        rewrite E2 in Hb.
        assert (Z.pos a < 9007199254740992) by (rewrite Ha; lia).
        destruct sw; cbn [cond_Zopp]; nia. }
    destruct (cond_Zopp sw (Z.pos a) + Z.pos b) as [|z|z] eqn:Ez;
      cbn [binary_normalize].
    + cbn [SF_positive]. tauto.
    + intros _. apply binary_round_at_least; [lia |]. apply Hz. lia.
    + intros H. destruct (binary_round_negative _ _ H).
Qed.

(** Dividing a float of at least [2 ^ -36] by 12.0 gives one of at least
    [2 ^ -40]: the quotient does not underflow. *)
Lemma SFdiv_12_at_least (x : spec_float) :
  valid_binary x = true -> SF_at_least (-36) x ->
  SF_at_least (-40) (SFdiv prec emax x (S754_finite false 6755399441055744 (-49))).
Proof.
  intros Hv Hx.
  destruct x as [sx | [|] | | [|] mx ex]; cbn [SF_at_least] in Hx; try contradiction.
  - exact I.
  - destruct (valid_binary_bounds _ _ _ Hv) as (Hd & _ & Hex).
    destruct Hx as [_ Hx].
    cbn [SFdiv xorb]. unfold SFdiv_core_binary. cbv zeta.
    cbn [Zdigits2].
    change (Z.pos (digits2_pos 6755399441055744)) with 53.
    pose proof (digits2_pos_bounds mx) as [Hlo _].
    set (d := Z.pos (digits2_pos mx)) in *.
    set (e' := Z.min (fexp prec emax (d + ex - (53 + -49))) (ex - -49)).
    assert (He' : e' = Z.min (Z.max (d + ex - 57) (-1074)) (ex + 49)).
    { unfold e', fexp, emin. change prec with 53. change emax with 1024. lia. }
    clearbody e'.
    set (s := ex - -49 - e').
    assert (Hs : 0 <= s) by lia.
    set (m' := match s with Z0 => Z.pos mx | Z.pos _ => Z.shiftl (Z.pos mx) s | Z.neg _ => 0 end).
    assert (Hm' : m' = Z.pos mx * 2 ^ s).
    { unfold m'. destruct s as [|p|p]; [change (2 ^ 0) with 1; lia | apply Z.shiftl_mul_pow2; lia | lia]. }
    clearbody m'.
    destruct (Z.div_eucl m' 6755399441055744) as [q r] eqn:E.
    assert (Hq : q = m' / 6755399441055744) by (unfold Z.div; rewrite E; reflexivity).
    apply binary_round_aux_at_least; [lia |].
    set (a := Z.max (d - 1) (-36 - ex)).
    assert (Ha : 2 ^ a <= Z.pos mx).
    { unfold a. destruct (Z.max_spec (d - 1) (-36 - ex)) as [[_ ->]|[_ ->]]; assumption. }
    set (K := Z.max 0 (-40 - e')).
    assert (HK : 2 ^ K <= q).
    { rewrite Hq. apply Z.div_le_lower_bound; [lia |]. rewrite Hm'.
      assert (0 < 2 ^ K) by (apply Z.pow_pos_nonneg; lia).
      assert (0 < 2 ^ s) by (apply Z.pow_pos_nonneg; lia).
      apply Z.le_trans with (2 ^ (a + s)).
      - apply Z.le_trans with (2 ^ (53 + K)).
        + rewrite pow2_split by lia. nia.
        + apply Z.pow_le_mono_r; lia.
      - rewrite pow2_split by lia. nia. }
    split.
    + apply Z.lt_le_trans with (2 ^ K); [apply Z.pow_pos_nonneg; lia | exact HK].
    + apply Z.le_trans with (2 ^ K); [| exact HK].
      destruct (Z.lt_ge_cases (-40 - e') 0) as [Hneg|Hpos].
      * rewrite Z.pow_neg_r by exact Hneg. apply Z.pow_nonneg. lia.
      * apply Z.pow_le_mono_r; lia.
Qed.

Lemma SF_at_least_nonzero (k : Z) (f : float) :
  SF_at_least k (Prim2SF f) -> (f =? 0)%float = false.
Proof.
  rewrite FloatAxioms.eqb_spec.
  destruct (Prim2SF f) as [s | [|] | | [|] m e]; cbn [SF_at_least];
    try contradiction; intros _; reflexivity.
Qed.

Lemma py_gt_zero_positive (f : float) :
  py_gt (PFloat f) (PInt 0) = true -> SF_positive (Prim2SF f).
Proof.
  unfold py_gt. cbn [py_compare].
  destruct (Prim2SF f) as [s | [|] | | [|] m e]; cbn [SF_positive Z_compare_SF cond_Zopp];
    try (intros _; exact I); try discriminate.
  destruct (Z.leb_spec 0 e) as [He|He]; cbn [fmap option_fmap option_map].
  - assert (0 < 2 ^ e) by (apply Z.pow_pos_nonneg; lia).
    destruct (Z.compare_spec 0 (- Z.pos m * 2 ^ e)); cbn [CompOpp];
      try discriminate; nia.
  - cbn [Z.mul]. destruct (Z.compare_spec 0 (- Z.pos m)); cbn [CompOpp];
      try discriminate; lia.
Qed.

(** The break-even division never divides by zero once the annual savings
    are some float plus 150000.0. *)
Lemma break_even_after_150000 (migration_cost : pyval) (w : float) :
  break_even migration_cost (PFloat (w + 150000)) <> Raise ZeroDivisionError.
Proof.
  unfold break_even.
  destruct (py_gt (PFloat (w + 150000)) (PInt 0)) eqn:Hgt; [| discriminate].
  apply py_gt_zero_positive in Hgt.
  assert (H12 : float_of_int 12 = Ok 12%float) by (vm_compute; reflexivity).
  cbn [py_truediv]. rewrite H12. cbn [mbind result_bind].
  unfold float_div at 1.
  change (12 =? 0)%float with false. cbn [fmap result_fmap mbind result_bind].
  apply truediv_above_base.
  apply SF_at_least_nonzero with (-40).
  rewrite FloatAxioms.div_spec.
  change (Prim2SF 12) with (S754_finite false 6755399441055744 (-49)).
  apply SFdiv_12_at_least; [apply Prim2SF_valid |].
  revert Hgt. rewrite FloatAxioms.add_spec.
  change (Prim2SF 150000) with (S754_finite false 5153960755200000 (-35)).
  apply SFadd_150000_at_least. apply Prim2SF_valid.
Qed.

(** ** Which exceptions the calculator can raise *)

Lemma Ok_only_overflow {A : Type} (a : A) : only_overflow (Ok a).
Proof. intros e. discriminate. Qed.

Lemma bind_only_overflow {A B : Type} (m : result A) (k : A -> result B) :
  only_overflow m -> (forall a, only_overflow (k a)) -> only_overflow (m ≫= k).
Proof.
  intros Hm Hk e. destruct m as [a|e']; cbn [mbind result_bind].
  - apply Hk.
  - intros [= <-]. apply Hm. reflexivity.
Qed.

Lemma float_of_int_only_overflow (z : Z) : only_overflow (float_of_int z).
Proof. intros e. apply float_of_int_raises. Qed.

Lemma arith_only_overflow fz ff (a b : pyval) : only_overflow (arith fz ff a b).
Proof.
  destruct a, b; cbn [arith];
    repeat first [apply Ok_only_overflow | apply float_of_int_only_overflow
                 | apply bind_only_overflow; [| intros ?]].
Qed.

Ltac only_overflow :=
  repeat first [apply Ok_only_overflow | apply arith_only_overflow
               | apply bind_only_overflow; [| intros ?]].

Lemma current_costs_only_overflow (metrics : gmap string pyval) :
  only_overflow (_calculate_current_costs metrics).
Proof. unfold _calculate_current_costs, py_sum. cbn [foldl]. only_overflow. Qed.

Lemma line_item_only_overflow (count : pyval) (rate : float) :
  only_overflow (line_item count rate).
Proof. unfold line_item. only_overflow. Qed.

Lemma add_if_selected_only_overflow (tag : string) (services : list string)
    (cost : result pyval) (total_cost : pyval) :
  only_overflow cost -> only_overflow (add_if_selected tag services cost total_cost).
Proof.
  intros H. unfold add_if_selected. destruct (contains tag services).
  - apply bind_only_overflow; [exact H | intros c; apply arith_only_overflow].
  - apply Ok_only_overflow.
Qed.

Lemma aws_costs_only_overflow (metrics : gmap string pyval) (services : list string) :
  only_overflow (_calculate_aws_costs metrics services).
Proof.
  unfold _calculate_aws_costs.
  repeat first [apply Ok_only_overflow
               | apply bind_only_overflow; [apply add_if_selected_only_overflow | intros ?]].
  - unfold cloudwatch_cost.
    repeat first [apply line_item_only_overflow | apply arith_only_overflow
                 | apply bind_only_overflow; [| intros ?]].
  - unfold systems_manager_cost.
    repeat first [apply line_item_only_overflow | apply arith_only_overflow
                 | apply bind_only_overflow; [| intros ?]].
  - unfold config_cost.
    repeat first [apply line_item_only_overflow | apply arith_only_overflow
                 | apply bind_only_overflow; [| intros ?]].
Qed.

Lemma operational_savings_only_overflow (metrics : gmap string pyval) :
  only_overflow (_calculate_operational_savings metrics).
Proof. unfold _calculate_operational_savings. only_overflow. Qed.

Lemma migration_costs_only_overflow (metrics : gmap string pyval)
    (services : list string) :
  only_overflow (_calculate_migration_costs metrics services).
Proof. unfold _calculate_migration_costs. only_overflow. Qed.

(** *** The helpers return floats *)

Lemma current_costs_float (metrics : gmap string pyval) (v : pyval) :
  _calculate_current_costs metrics = Ok v -> is_float v.
Proof.
  unfold _calculate_current_costs, py_sum. cbn [foldl]. intros H. peel H.
  peel E1. peel E1.
  apply arith_float_r in E as [staff ->].
  apply arith_float_r in E1 as [acc ->].
  apply arith_float_l in H. exact H.
Qed.

Lemma add_if_selected_shape (tag : string) (services : list string)
    (cost : result pyval) (total_cost v : pyval) :
  (forall c, cost = Ok c -> is_float c) ->
  total_cost = PInt 0 \/ is_float total_cost ->
  add_if_selected tag services cost total_cost = Ok v ->
  v = PInt 0 \/ is_float v.
Proof.
  intros Hc Ht. unfold add_if_selected. destruct (contains tag services).
  - intros H. peel H. apply Hc in E as [c ->]. right.
    apply arith_float_r in H. exact H.
  - intros [= <-]. exact Ht.
Qed.

(** The AWS cost is the integer 0 when no recognized service is selected,
    and a float otherwise. *)
Lemma aws_costs_shape (metrics : gmap string pyval) (services : list string)
    (v : pyval) :
  _calculate_aws_costs metrics services = Ok v -> v = PInt 0 \/ is_float v.
Proof.
  unfold _calculate_aws_costs. intros H. peel H. injection H as <-.
  eapply add_if_selected_shape; [apply config_cost_float | | exact E1].
  eapply add_if_selected_shape; [apply systems_manager_cost_float | | exact E0].
  eapply add_if_selected_shape; [apply cloudwatch_cost_float | | exact E].
  left. reflexivity.
Qed.

Lemma operational_savings_float (metrics : gmap string pyval) (v : pyval) :
  _calculate_operational_savings metrics = Ok v -> is_float v.
Proof.
  unfold _calculate_operational_savings. intros H. peel H.
  apply arith_float_r in E as [p ->].
  apply arith_float_r in E0 as [i ->].
  apply arith_float_r in E1 as [h ->].
  apply arith_float_l in E2 as [m ->].
  apply arith_float_l in H. exact H.
Qed.

Lemma migration_costs_float (metrics : gmap string pyval) (services : list string)
    (v : pyval) :
  _calculate_migration_costs metrics services = Ok v -> is_float v.
Proof.
  unfold _calculate_migration_costs. intros H. peel H.
  apply arith_float_r in E0 as [b ->].
  apply arith_float_l in H. exact H.
Qed.

Lemma risk_mitigation_default (metrics : gmap string pyval) :
  Forall (fun key => metrics !! key = None) risk_keys ->
  _calculate_risk_mitigation metrics = Ok (PFloat 150000).
Proof.
  intros H. unfold risk_keys in H.
  apply Forall_cons in H as [H1 H]. apply Forall_cons in H as [H2 H].
  apply Forall_cons in H as [H3 H]. apply Forall_cons in H as [H4 _].
  unfold _calculate_risk_mitigation.
  rewrite !get_absent by assumption.
  vm_compute. reflexivity.
Qed.

(** *** The arithmetic after the helpers *)

Lemma break_even_floats (m a : float) :
  break_even (PFloat m) (PFloat a) <> Raise ZeroDivisionError ->
  exists b, break_even (PFloat m) (PFloat a) = Ok b.
Proof.
  unfold break_even. destruct (py_gt (PFloat a) (PInt 0)); [| eexists; reflexivity].
  assert (H12 : float_of_int 12 = Ok 12%float) by (vm_compute; reflexivity).
  cbn [py_truediv]. rewrite H12. cbn [mbind result_bind].
  assert (Hd : float_div a 12 = Ok (a / 12)%float) by reflexivity.
  rewrite Hd. cbn [fmap result_fmap mbind result_bind py_truediv].
  unfold float_div. destruct (a / 12 =? 0)%float; cbn [fmap result_fmap].
  - intros H. destruct H. reflexivity.
  - intros _. eexists. reflexivity.
Qed.

(** Once the four cost helpers have returned and the risk figures are the
    defaults, the remaining arithmetic of [calculate_migration_roi]
    returns. *)
Lemma roi_from_parts (metrics : gmap string pyval) (services : list string)
    (timeline_months : Z) (current aws ops cost : pyval) :
  Forall (fun key => metrics !! key = None) risk_keys ->
  (forall v, metrics !! "ops_team_size" = Some v -> py_ge v (PInt 0) = true) ->
  _calculate_current_costs metrics = Ok current ->
  _calculate_aws_costs metrics services = Ok aws ->
  _calculate_operational_savings metrics = Ok ops ->
  _calculate_migration_costs metrics services = Ok cost ->
  exists r, calculate_migration_roi metrics services timeline_months = Ok r
            /\ current_annual_cost r = current
            /\ aws_annual_cost r = aws
            /\ operational_savings r = ops
            /\ risk_mitigation_value r = PFloat 150000
            /\ migration_cost r = cost.
Proof.
  intros Hrisk Hteam Hc Ha Ho Hm.
  pose proof (migration_cost_cases metrics services Hteam) as Hcases.
  rewrite Hm in Hcases. destruct Hcases as (_ & _ & Hdiv).
  unfold calculate_migration_roi.
  rewrite Hc, Ha, Ho, (risk_mitigation_default _ Hrisk), Hm.
  cbn [mbind result_bind].
  apply current_costs_float in Hc as [c ->].
  apply operational_savings_float in Ho as [o ->].
  apply migration_costs_float in Hm as [m ->].
  assert (H0 : float_of_int 0 = Ok 0%float) by (vm_compute; reflexivity).
  assert (H3 : float_of_int 3 = Ok 3%float) by (vm_compute; reflexivity).
  assert (Hinfra : exists i, py_sub (PFloat c) aws = Ok (PFloat i)).
  { apply aws_costs_shape in Ha as [-> | [a ->]]; cbn [py_sub arith].
    - rewrite H0. eexists. reflexivity.
    - eexists. reflexivity. }
  destruct Hinfra as [i ->]. cbn [mbind result_bind py_add py_sub py_mul arith].
  rewrite H3. cbn [mbind result_bind py_add py_sub py_mul arith].
  specialize (Hdiv (PFloat (((i + o + 150000) * 3 - m)%float))).
  cbn [py_truediv] in Hdiv |- *. unfold float_div in Hdiv |- *.
  destruct (m =? 0)%float; [destruct Hdiv; reflexivity |].
  cbn [fmap result_fmap mbind result_bind].
  destruct (break_even_floats m (i + o + 150000)
              (break_even_after_150000 _ _)) as [b ->].
  cbn [mbind result_bind]. eexists. split; [reflexivity |].
  cbn. repeat split; reflexivity.
Qed.

(** X8: with the default risk figures and a non-negative team size,
    [calculate_migration_roi] never raises [ZeroDivisionError]: whatever the
    other metrics are, its only exception is the [OverflowError] of one of
    the four cost helpers, and it returns whenever they all do. *)
Theorem roi_raises_only_in_cost_helpers (metrics : gmap string pyval)
    (services : list string) (timeline_months : Z) :
  Forall (fun key => metrics !! key = None) risk_keys ->
  (forall v, metrics !! "ops_team_size" = Some v -> py_ge v (PInt 0) = true) ->
  match calculate_migration_roi metrics services timeline_months with
  | Ok r =>
      _calculate_current_costs metrics = Ok (current_annual_cost r)
      /\ _calculate_aws_costs metrics services = Ok (aws_annual_cost r)
      /\ _calculate_operational_savings metrics = Ok (operational_savings r)
      /\ _calculate_migration_costs metrics services = Ok (migration_cost r)
  | Raise e =>
      e = OverflowError
      /\ (_calculate_current_costs metrics = Raise OverflowError
          \/ _calculate_aws_costs metrics services = Raise OverflowError
          \/ _calculate_operational_savings metrics = Raise OverflowError
          \/ _calculate_migration_costs metrics services = Raise OverflowError)
  end.
Proof.
  intros Hrisk Hteam.
  destruct (_calculate_current_costs metrics) as [current|e1] eqn:Hc.
  2: { pose proof (current_costs_only_overflow metrics e1 Hc) as ->.
       unfold calculate_migration_roi. rewrite Hc. cbn [mbind result_bind].
       split; [reflexivity | left; reflexivity]. }
  destruct (_calculate_aws_costs metrics services) as [aws|e2] eqn:Ha.
  2: { pose proof (aws_costs_only_overflow metrics services e2 Ha) as ->.
       unfold calculate_migration_roi. rewrite Hc, Ha. cbn [mbind result_bind].
       split; [reflexivity | right; left; reflexivity]. }
  destruct (_calculate_operational_savings metrics) as [ops|e3] eqn:Ho.
  2: { pose proof (operational_savings_only_overflow metrics e3 Ho) as ->.
       unfold calculate_migration_roi. rewrite Hc, Ha, Ho. cbn [mbind result_bind].
       split; [reflexivity | right; right; left; reflexivity]. }
  destruct (_calculate_migration_costs metrics services) as [cost|e4] eqn:Hm.
  2: { pose proof (migration_costs_only_overflow metrics services e4 Hm) as ->.
       unfold calculate_migration_roi.
       rewrite Hc, Ha, Ho, (risk_mitigation_default _ Hrisk), Hm.
       cbn [mbind result_bind].
       split; [reflexivity | right; right; right; reflexivity]. }
  destruct (roi_from_parts metrics services timeline_months _ _ _ _
              Hrisk Hteam Hc Ha Ho Hm) as (r & -> & <- & <- & <- & _ & <-).
  repeat split; reflexivity.
Qed.

Lemma roi_raises_only_in_cost_helpers_witness :
  match calculate_migration_roi six_hundred_instances three_services 36 with
  | Ok r =>
      _calculate_current_costs six_hundred_instances = Ok (current_annual_cost r)
      /\ _calculate_aws_costs six_hundred_instances three_services
         = Ok (aws_annual_cost r)
      /\ _calculate_operational_savings six_hundred_instances
         = Ok (operational_savings r)
      /\ _calculate_migration_costs six_hundred_instances three_services
         = Ok (migration_cost r)
  | Raise e =>
      e = OverflowError
      /\ (_calculate_current_costs six_hundred_instances = Raise OverflowError
          \/ _calculate_aws_costs six_hundred_instances three_services
             = Raise OverflowError
          \/ _calculate_operational_savings six_hundred_instances
             = Raise OverflowError
          \/ _calculate_migration_costs six_hundred_instances three_services
             = Raise OverflowError)
  end.
Proof.
  apply roi_raises_only_in_cost_helpers.
  - repeat constructor.
  - intros v H. vm_compute in H. discriminate H.
Defined.

(** ** The calculator on collected snapshots *)

(** A count below [2 ^ 1000], scaled by a unit price of at most [2 ^ 20],
    still fits a float. *)
Lemma float_of_int_scaled (k c : Z) :
  0 <= k < 2 ^ 1000 -> 0 <= c <= 2 ^ 20 -> exists f, float_of_int (k * c) = Ok f.
Proof.
  intros Hk Hc. apply float_of_int_returns.
  assert (E : 2 ^ 1023 = 2 ^ 1000 * 2 ^ 23) by (rewrite <- Z.pow_add_r by lia; reflexivity).
  rewrite E. clear E.
  change (2 ^ 20) with 1048576 in Hc. change (2 ^ 23) with 8388608.
  set (P := 2 ^ 1000) in *. clearbody P.
  split; nia.
Qed.

Lemma collected_current_costs (h dt : Z) (mi : pyval) :
  0 <= h < 2 ^ 1000 -> 0 <= dt < 2 ^ 1000 ->
  exists v, _calculate_current_costs (collected_snapshot h mi (PInt dt)) = Ok v.
Proof.
  intros Hh Hdt. unfold _calculate_current_costs.
  change (get (collected_snapshot h mi (PInt dt)) "monitoring_tool_licenses" (PInt 0))
    with (PInt (h * 23 * 12)).
  change (get (collected_snapshot h mi (PInt dt)) "server_costs" (PInt 0)) with (PInt 0).
  change (get (collected_snapshot h mi (PInt dt)) "ops_staff_cost" (PInt 0))
    with (PInt 120000).
  change (get (collected_snapshot h mi (PInt dt)) "annual_downtime_hours" (PInt 0))
    with (PInt dt).
  change (get (collected_snapshot h mi (PInt dt)) "hourly_revenue_impact" (PInt 0))
    with (PInt 10000).
  assert (Es : py_mul (PInt 120000) (PFloat 0.3) = Ok (PFloat 36000))
    by (vm_compute; reflexivity).
  rewrite Es. unfold py_sum. cbn [foldl mbind result_bind py_add py_mul arith].
  replace (0 + h * 23 * 12 + 0) with (h * 276) by lia.
  destruct (float_of_int_scaled h 276 Hh ltac:(vm_compute; split; discriminate)) as [fl ->].
  cbn [mbind result_bind py_add arith].
  destruct (float_of_int_scaled dt 10000 Hdt ltac:(vm_compute; split; discriminate)) as [fd ->].
  cbn [mbind result_bind]. eexists. reflexivity.
Qed.

Lemma collected_aws_costs (h : Z) (mi dt : pyval) (services : list string) :
  0 <= h < 2 ^ 1000 ->
  exists v, _calculate_aws_costs (collected_snapshot h mi dt) services = Ok v.
Proof.
  intros Hh.
  assert (Hcw : cloudwatch_cost (collected_snapshot h mi dt) = Ok (PFloat 1800)).
  { unfold cloudwatch_cost.
    change (get (collected_snapshot h mi dt) "total_metrics" (PInt 100)) with (PInt 150).
    change (get (collected_snapshot h mi dt) "log_volume_gb_monthly" (PInt 50))
      with (PFloat 120).
    change (get (collected_snapshot h mi dt) "dashboards" (PInt 10)) with (PInt 15).
    vm_compute. reflexivity. }
  assert (Hcf : config_cost (collected_snapshot h mi dt) = Ok (PFloat 30)).
  { unfold config_cost.
    change (get (collected_snapshot h mi dt) "configuration_items" (PInt 500))
      with (PInt 500).
    change (get (collected_snapshot h mi dt) "compliance_checks_monthly" (PInt 1000))
      with (PInt 1000).
    vm_compute. reflexivity. }
  assert (Hsm : exists f, systems_manager_cost (collected_snapshot h mi dt) = Ok (PFloat f)).
  { unfold systems_manager_cost.
    change (get (collected_snapshot h mi dt) "total_instances" (PInt 100)) with (PInt h).
    change (get (collected_snapshot h mi dt) "monthly_automations" (PInt 50)) with (PInt 50).
    assert (Ea : line_item (PInt 50) aws_pricing.systems_manager.automation = Ok (PFloat 12))
      by (vm_compute; reflexivity).
    rewrite Ea. unfold line_item. cbn [py_mul arith].
    destruct (float_of_int_scaled h 1 Hh ltac:(vm_compute; split; discriminate)) as [fh Efh].
    rewrite Z.mul_1_r in Efh. rewrite Efh.
    assert (H12 : float_of_int 12 = Ok 12%float) by (vm_compute; reflexivity).
    repeat (progress (cbn [mbind result_bind py_add py_mul arith]; rewrite ?H12)).
    eexists. reflexivity. }
  destruct Hsm as [fs Hsm].
  assert (H0 : forall f, py_add (PInt 0) (PFloat f) = Ok (PFloat (0 + f)))
    by (intros f; reflexivity).
  unfold _calculate_aws_costs, add_if_selected. rewrite Hcw, Hcf, Hsm.
  destruct (contains "cloudwatch" services), (contains "systems_manager" services),
    (contains "config" services);
    cbn [mbind result_bind py_add arith]; rewrite ?H0; cbn [mbind result_bind py_add arith];
    eexists; reflexivity.
Qed.

Lemma collected_operational_savings (h mi : Z) (dt : pyval) :
  0 <= mi < 2 ^ 1000 ->
  exists v, _calculate_operational_savings (collected_snapshot h (PInt mi) dt) = Ok v.
Proof.
  intros Hmi. unfold _calculate_operational_savings.
  change (get (collected_snapshot h (PInt mi) dt) "mean_time_to_resolution_hours" (PInt 4))
    with (PInt 4).
  change (get (collected_snapshot h (PInt mi) dt) "monthly_incidents" (PInt 20))
    with (PInt mi).
  change (get (collected_snapshot h (PInt mi) dt) "engineer_hourly_cost" (PInt 100))
    with (PInt 100).
  assert (Ep : py_mul (PInt 4) (PFloat 0.4) = Ok (PFloat 1.6)) by (vm_compute; reflexivity).
  assert (Ei : py_sub (PInt 4) (PFloat 1.6) = Ok (PFloat 2.4)) by (vm_compute; reflexivity).
  assert (H100 : float_of_int 100 = Ok 100%float) by (vm_compute; reflexivity).
  assert (H12 : float_of_int 12 = Ok 12%float) by (vm_compute; reflexivity).
  rewrite Ep. cbn [mbind result_bind]. rewrite Ei. cbn [mbind result_bind py_mul arith].
  destruct (float_of_int_scaled mi 1 Hmi ltac:(vm_compute; split; discriminate)) as [fm Efm].
  rewrite Z.mul_1_r in Efm. rewrite Efm.
  repeat (progress (cbn [mbind result_bind py_mul arith]; rewrite ?H100, ?H12)).
  eexists. reflexivity.
Qed.

Lemma collected_migration_costs (h : Z) (mi dt : pyval) (services : list string) :
  0 <= h < 2 ^ 1000 ->
  exists v, _calculate_migration_costs (collected_snapshot h mi dt) services = Ok v.
Proof.
  intros Hh. unfold _calculate_migration_costs.
  destruct (scaled_base_above (collected_snapshot h mi dt) services) as (b & Hb & _).
  cbv zeta. rewrite Hb.
  change (get (collected_snapshot h mi dt) "ops_team_size" (PInt 5))
    with (PInt (Z.max 1 (h / 100))).
  cbn [mbind result_bind py_mul py_add arith].
  assert (Ht : 0 <= Z.max 1 (h / 100) < 2 ^ 1000).
  { assert (h / 100 <= h) by (apply Z.div_le_upper_bound; lia).
    assert (1 < 2 ^ 1000) by (apply Z.pow_gt_1; lia). lia. }
  destruct (float_of_int_scaled _ 2000 Ht ltac:(vm_compute; split; discriminate)) as [ft ->].
  cbn [mbind result_bind]. eexists. reflexivity.
Qed.

(** X9: the assessment as the runner wires it, the collected snapshot
    handed to [calculate_migration_roi], returns a result for every fleet
    and API response of realistic size, whatever services are selected: no
    division by zero and no overflow.  The result's risk mitigation is the
    default 150000.0 (the collector reports no compliance or security
    figures) and the migration cost is at least 50000. *)
Theorem assessment_returns (hosts : nat) (error_query : query_outcome)
    (performance_queries : query_outcome * query_outcome)
    (services : list string) (timeline_months : Z) :
  Z.of_nat hosts < 2 ^ 1000 ->
  match error_query with
  | QueryReturned (error_points :: _) => Z.of_nat (length error_points) < 2 ^ 999
  | _ => True
  end ->
  exists metrics r,
    collect_infrastructure_metrics hosts error_query performance_queries = Ok metrics
    /\ calculate_migration_roi metrics services timeline_months = Ok r
    /\ risk_mitigation_value r = PFloat 150000
    /\ risk_reduction (cost_breakdown r) = PFloat 150000
    /\ is_float (annual_savings r)
    /\ py_ge (migration_cost r) (PInt 50000) = true.
Proof.
  intros Hhosts Hpoints.
  destruct (incident_data_shape error_query) as (mi & dt & Hq & Hmi & Hdt & Hle).
  exists (collected_snapshot (Z.of_nat hosts) (PInt mi) (PInt dt)).
  set (h := Z.of_nat hosts) in *.
  assert (Hh : 0 <= h < 2 ^ 1000) by (unfold h; lia).
  assert (Hbig : 48 < 2 ^ 999) by (vm_compute; reflexivity).
  assert (Hdbl : 2 ^ 1000 = 2 * 2 ^ 999) by (rewrite <- Z.pow_succ_r by lia; reflexivity).
  assert (Hb : 0 <= mi < 2 ^ 1000 /\ 0 <= dt < 2 ^ 1000).
  { destruct error_query as [|[|error_points rest]]; lia. }
  destruct Hb as [Hmi' Hdt'].
  set (M := collected_snapshot h (PInt mi) (PInt dt)).
  assert (Hrisk : Forall (fun key => M !! key = None) risk_keys) by (repeat constructor).
  assert (Hteam : forall v, M !! "ops_team_size" = Some v -> py_ge v (PInt 0) = true).
  { change (M !! "ops_team_size") with (Some (PInt (Z.max 1 (h / 100)))).
    intros v [= <-]. unfold py_ge. cbn [py_compare].
    destruct (Z.compare_spec (Z.max 1 (h / 100)) 0); try reflexivity. lia. }
  destruct (collected_current_costs h dt (PInt mi) Hh Hdt') as [c Hc].
  destruct (collected_aws_costs h (PInt mi) (PInt dt) services Hh) as [a Ha].
  destruct (collected_operational_savings h mi (PInt dt) Hmi') as [o Ho].
  destruct (collected_migration_costs h (PInt mi) (PInt dt) services Hh) as [m Hm].
  fold M in Hc, Ha, Ho, Hm.
  destruct (roi_from_parts M services timeline_months _ _ _ _
              Hrisk Hteam Hc Ha Ho Hm) as (r & Hr & _ & _ & _ & Hrm & Hmc).
  exists r.
  split; [apply collect_from_incident_dict; exact Hq |].
  split; [exact Hr |].
  split; [exact Hrm |].
  pose proof (migration_cost_cases M services Hteam) as Hcases.
  rewrite Hm in Hcases. destruct Hcases as (Hge & _ & _).
  unfold calculate_migration_roi in Hr. peel Hr. injection Hr as <-.
  cbn [risk_mitigation_value cost_breakdown risk_reduction annual_savings migration_cost]
    in Hrm, Hmc |- *.
  subst. split; [reflexivity |].
  split; [| exact Hge].
  match goal with
  | E : py_add _ (PFloat 150000) = Ok ?x |- is_float ?x =>
      apply arith_float_r in E; exact E
  end.
Qed.

Lemma assessment_returns_witness :
  exists metrics r,
    collect_infrastructure_metrics 250
      (QueryReturned [[(PInt 0, Some (PFloat 0.5)); (PInt 1, Some (PFloat 0.01))]])
      (QueryRaised, QueryRaised) = Ok metrics
    /\ calculate_migration_roi metrics ["cloudwatch"; "systems_manager"] 36 = Ok r
    /\ risk_mitigation_value r = PFloat 150000
    /\ risk_reduction (cost_breakdown r) = PFloat 150000
    /\ is_float (annual_savings r)
    /\ py_ge (migration_cost r) (PInt 50000) = true.
Proof.
  apply assessment_returns; vm_compute; reflexivity.
Defined.

(** X10: on a collected snapshot the projected CloudWatch and Config costs
    and the risk mitigation do not depend on the fleet or on the API
    responses: 1800.0, 30.0 and 150000.0 (the collector fixes the log volume
    at 120 GB and reports no configuration, compliance or security figure).
    So without ["systems_manager"] the AWS cost is one of four constants,
    chosen by the tags present.  Only the complexity multiplier sees the
    fleet: it has the factor 1.5 exactly when there are more than 500
    hosts. *)
Theorem collected_costs_ignore_fleet (hosts : nat) (error_query : query_outcome)
    (performance_queries : query_outcome * query_outcome) (services : list string) :
  "systems_manager" ∉ services ->
  exists metrics,
    collect_infrastructure_metrics hosts error_query performance_queries = Ok metrics
    /\ cloudwatch_cost metrics = Ok (PFloat 1800)
    /\ config_cost metrics = Ok (PFloat 30)
    /\ _calculate_risk_mitigation metrics = Ok (PFloat 150000)
    /\ _calculate_aws_costs metrics services
       = Ok (match contains "cloudwatch" services, contains "config" services with
             | true, true => PFloat 1830
             | true, false => PFloat 1800
             | false, true => PFloat 30
             | false, false => PInt 0
             end)
    /\ complexity_multiplier metrics services
       = complexity_multiplier {[ "total_instances" := PInt (Z.of_nat hosts) ]} services
    /\ (py_gt (get metrics "total_instances" (PInt 0)) (PInt 500) = true
        <-> (500 < hosts)%nat).
Proof.
  intros Hsm.
  destruct (incident_data_shape error_query) as (mi & dt & Hq & _).
  exists (collected_snapshot (Z.of_nat hosts) (PInt mi) (PInt dt)).
  set (M := collected_snapshot (Z.of_nat hosts) (PInt mi) (PInt dt)).
  split; [apply collect_from_incident_dict; exact Hq |].
  assert (Hcw : cloudwatch_cost M = Ok (PFloat 1800)).
  { unfold cloudwatch_cost.
    change (get M "total_metrics" (PInt 100)) with (PInt 150).
    change (get M "log_volume_gb_monthly" (PInt 50)) with (PFloat 120).
    change (get M "dashboards" (PInt 10)) with (PInt 15).
    vm_compute. reflexivity. }
  assert (Hcf : config_cost M = Ok (PFloat 30)).
  { unfold config_cost.
    change (get M "configuration_items" (PInt 500)) with (PInt 500).
    change (get M "compliance_checks_monthly" (PInt 1000)) with (PInt 1000).
    vm_compute. reflexivity. }
  split; [exact Hcw |]. split; [exact Hcf |].
  split; [apply risk_mitigation_default; repeat constructor |].
  split.
  { unfold _calculate_aws_costs, add_if_selected.
    rewrite (proj2 (contains_false _ _) Hsm), Hcw, Hcf.
    destruct (contains "cloudwatch" services), (contains "config" services);
      vm_compute; reflexivity. }
  split; [reflexivity |].
  change (get M "total_instances" (PInt 0)) with (PInt (Z.of_nat hosts)).
  unfold py_gt. cbn [py_compare].
  destruct (Z.compare_spec (Z.of_nat hosts) 500); split; intros; try discriminate;
    try reflexivity; lia.
Qed.

Lemma collected_costs_ignore_fleet_witness :
  exists metrics,
    collect_infrastructure_metrics 600 QueryRaised (QueryRaised, QueryRaised) = Ok metrics
    /\ cloudwatch_cost metrics = Ok (PFloat 1800)
    /\ config_cost metrics = Ok (PFloat 30)
    /\ _calculate_risk_mitigation metrics = Ok (PFloat 150000)
    /\ _calculate_aws_costs metrics ["config"; "cloudwatch"] = Ok (PFloat 1830)
    /\ complexity_multiplier metrics ["config"; "cloudwatch"]
       = complexity_multiplier {[ "total_instances" := PInt 600 ]} ["config"; "cloudwatch"]
    /\ (py_gt (get metrics "total_instances" (PInt 0)) (PInt 500) = true
        <-> (500 < 600)%nat).
Proof.
  apply (collected_costs_ignore_fleet 600 QueryRaised (QueryRaised, QueryRaised)
           ["config"; "cloudwatch"]).
  vm_compute. intros H. inversion H as [|? ? ? H']; subst. 
  inversion H' as [|? ? ? H'']; subst. inversion H''.
Defined.

(** X11: the monthly incidents are the spikes divided by 12, rounded down,
    so a response with fewer than 12 spikes gives no monthly incident and
    the calculator's operational savings on the collected snapshot are 0.0,
    whatever the fleet. *)
Theorem few_spikes_no_operational_savings (hosts : nat) (error_points : list point)
    (rest : list (list point)) (performance_queries : query_outcome * query_outcome)
    (incidents : Z) :
  count_spikes error_points = Some incidents ->
  incidents < 12 ->
  exists metrics,
    collect_infrastructure_metrics hosts (QueryReturned (error_points :: rest))
      performance_queries = Ok metrics
    /\ metrics !! "monthly_incidents" = Some (PInt 0)
    /\ metrics !! "annual_downtime_hours" = Some (PInt (incidents * 2))
    /\ _calculate_operational_savings metrics = Ok (PFloat 0).
Proof.
  intros Hcount Hfew.
  pose proof (count_spikes_bounds _ _ Hcount) as [H0 _].
  assert (Hq : _get_incident_data (QueryReturned (error_points :: rest))
               = incident_dict (PInt 0) (PInt (incidents * 2))).
  { cbn [_get_incident_data]. rewrite Hcount, incident_estimate_dict.
    rewrite Z.div_small by lia. reflexivity. }
  exists (collected_snapshot (Z.of_nat hosts) (PInt 0) (PInt (incidents * 2))).
  split; [apply collect_from_incident_dict; exact Hq |].
  split; [reflexivity |]. split; [reflexivity |].
  unfold _calculate_operational_savings.
  set (M := collected_snapshot (Z.of_nat hosts) (PInt 0) (PInt (incidents * 2))).
  change (get M "mean_time_to_resolution_hours" (PInt 4)) with (PInt 4).
  change (get M "monthly_incidents" (PInt 20)) with (PInt 0).
  change (get M "engineer_hourly_cost" (PInt 100)) with (PInt 100).
  vm_compute. reflexivity.
Qed.

Lemma few_spikes_no_operational_savings_witness :
  exists metrics,
    collect_infrastructure_metrics 250
      (QueryReturned [[(PInt 0, Some (PFloat 0.5)); (PInt 1, Some (PFloat 0.01))]])
      (QueryRaised, QueryRaised) = Ok metrics
    /\ metrics !! "monthly_incidents" = Some (PInt 0)
    /\ metrics !! "annual_downtime_hours" = Some (PInt (1 * 2))
    /\ _calculate_operational_savings metrics = Ok (PFloat 0).
Proof.
  apply (few_spikes_no_operational_savings 250
           [(PInt 0, Some (PFloat 0.5)); (PInt 1, Some (PFloat 0.01))] []
           (QueryRaised, QueryRaised) 1).
  - vm_compute. reflexivity.
  - lia.
Defined.

(** ** Savings that are not positive

    A float that is not positive (a zero, a negative float or a NaN) stays
    so when it is multiplied by 3.0, when a positive float is subtracted
    from it and when it is divided by a positive float: rounding keeps the
    sign. *)

Lemma positive_py_gt_zero (f : float) :
  SF_positive (Prim2SF f) -> py_gt (PFloat f) (PInt 0) = true.
Proof.
  unfold py_gt. cbn [py_compare].
  destruct (Prim2SF f) as [s | [|] | | [|] m e]; cbn [SF_positive Z_compare_SF cond_Zopp];
    try contradiction; intros _; try reflexivity.
  destruct (Z.leb_spec 0 e) as [He|He]; cbn [fmap option_fmap option_map].
  - assert (0 < 2 ^ e) by (apply Z.pow_pos_nonneg; lia).
    destruct (Z.compare_spec 0 (Z.pos m * 2 ^ e)); cbn [CompOpp]; try reflexivity; nia.
  - reflexivity.
Qed.

Lemma SFmul_3_not_positive (x : spec_float) :
  ~ SF_positive x ->
  ~ SF_positive (SFmul prec emax x (S754_finite false 6755399441055744 (-51))).
Proof.
  destruct x as [sx | [|] | | [|] mx ex]; cbn [SF_positive SFmul xorb]; try tauto.
  intros _. apply binary_round_aux_negative.
Qed.

Lemma SFsub_not_positive (x y : spec_float) :
  ~ SF_positive x -> SF_positive y -> ~ SF_positive (SFsub prec emax x y).
Proof.
  destruct x as [sx | [|] | | [|] mx ex]; cbn [SF_positive]; try tauto;
    destruct y as [sy | [|] | | [|] my ey]; cbn [SF_positive SFsub negb]; try tauto.
  intros _ _. cbn [cond_Zopp].
  destruct (- Z.pos (fst (shl_align mx ex (Z.min ex ey)))
            - Z.pos (fst (shl_align my ey (Z.min ex ey)))) as [|p|p] eqn:E;
    try lia.
  cbn [binary_normalize]. apply binary_round_negative.
Qed.

Lemma SFdiv_not_positive (x y : spec_float) :
  ~ SF_positive x -> SF_positive y -> ~ SF_positive (SFdiv prec emax x y).
Proof.
  destruct x as [sx | [|] | | [|] mx ex]; cbn [SF_positive]; try tauto;
    destruct y as [sy | [|] | | [|] my ey]; cbn [SF_positive SFdiv xorb]; try tauto.
  intros _ _.
  destruct (SFdiv_core_binary prec emax (Z.pos mx) ex (Z.pos my) ey) as [[mz ez] lz].
  apply binary_round_aux_negative.
Qed.

Lemma not_positive_py_gt (f g : float) :
  ~ SF_positive (Prim2SF f) -> SF_positive (Prim2SF g) ->
  py_gt (PFloat f) (PFloat g) = false.
Proof.
  unfold py_gt. cbn [py_compare].
  destruct (Prim2SF f) as [sx | [|] | | [|] mx ex]; cbn [SF_positive]; try tauto;
    destruct (Prim2SF g) as [sy | [|] | | [|] my ey]; cbn [SF_positive SFcompare];
    try tauto; reflexivity.
Qed.

(** X12: when the annual savings are zero or negative (and the team size is
    not negative), the break-even is the infinity sentinel, the three-year
    ROI is not positive and the executive summary rates the business case
    WEAK. *)
Theorem nonpositive_savings_weak (metrics : gmap string pyval)
    (services : list string) (timeline_months : Z) (r : roi_result) :
  (forall v, metrics !! "ops_team_size" = Some v -> py_ge v (PInt 0) = true) ->
  calculate_migration_roi metrics services timeline_months = Ok r ->
  py_le (annual_savings r) (PInt 0) = true ->
  break_even_months r = PFloat infinity
  /\ py_gt (three_year_roi r) (PInt 0) = false
  /\ summary_business_case (generate_executive_summary r) = "WEAK".
Proof.
  intros Hteam H Hle.
  pose proof (migration_cost_cases metrics services Hteam) as Hcases.
  unfold calculate_migration_roi in H. peel H. injection H as <-.
  cbn [annual_savings break_even_months three_year_roi generate_executive_summary
       summary_business_case] in Hle |- *.
  repeat match goal with
  | E : _calculate_migration_costs _ _ = Ok _ |- _ =>
      rewrite E in Hcases; apply migration_costs_float in E as [m ->]
  | E : _calculate_operational_savings _ = Ok _ |- _ =>
      apply operational_savings_float in E as [o ->]
  end.
  destruct Hcases as (_ & Hpos & _). apply py_gt_zero_positive in Hpos.
  repeat match goal with
  | E : py_add _ (PFloat o) = Ok _ |- _ => apply arith_float_r in E as [w ->]
  end.
  repeat match goal with
  | E : py_add (PFloat w) _ = Ok ?a |- _ =>
      let E' := fresh in pose proof (arith_float_l _ _ _ _ _ E) as [s ->]; clear E
  end.
  assert (Hs : ~ SF_positive (Prim2SF s)).
  { intros Hp. apply positive_py_gt_zero in Hp.
    rewrite (py_le_gt_false _ _ Hle) in Hp. discriminate. }
  assert (H3 : float_of_int 3 = Ok 3%float) by (vm_compute; reflexivity).
  repeat match goal with
  | E : py_mul (PFloat s) (PInt 3) = Ok _ |- _ =>
      cbn [py_mul arith] in E; rewrite H3 in E; cbn [mbind result_bind] in E;
      injection E as <-
  end.
  repeat match goal with
  | E : py_sub (PFloat (s * 3)) (PFloat m) = Ok _ |- _ =>
      cbn [py_sub arith] in E; injection E as <-
  end.
  repeat match goal with
  | E : py_truediv (PFloat (s * 3 - m)) (PFloat m) = Ok _ |- _ =>
      cbn [py_truediv] in E; unfold float_div in E;
      destruct (m =? 0)%float; [discriminate E |];
      cbn [fmap result_fmap] in E; injection E as <-
  end.
  assert (Hroi : ~ SF_positive (Prim2SF ((s * 3 - m) / m))).
  { rewrite FloatAxioms.div_spec. apply SFdiv_not_positive; [| exact Hpos].
    rewrite FloatAxioms.sub_spec. apply SFsub_not_positive; [| exact Hpos].
    rewrite FloatAxioms.mul_spec.
    change (Prim2SF 3) with (S754_finite false 6755399441055744 (-51)).
    apply SFmul_3_not_positive. exact Hs. }
  split.
  - match goal with
    | E : break_even _ _ = Ok ?b |- ?b = _ =>
        unfold break_even in E; rewrite (py_le_gt_false _ _ Hle) in E;
        injection E as <-; reflexivity
    end.
  - split.
    + destruct (py_gt (PFloat ((s * 3 - m) / m)) (PInt 0)) eqn:Egt; [| reflexivity].
      apply py_gt_zero_positive in Egt. contradiction.
    + unfold business_case.
      rewrite !not_positive_py_gt; [reflexivity | exact Hroi | | exact Hroi |];
        vm_compute; exact I.
Qed.

Lemma nonpositive_savings_weak_witness :
  exists r, calculate_migration_roi negative_savings [] 36 = Ok r
    /\ break_even_months r = PFloat infinity
    /\ py_gt (three_year_roi r) (PInt 0) = false
    /\ summary_business_case (generate_executive_summary r) = "WEAK".
Proof.
  eexists. split; [vm_compute; reflexivity |].
  apply (nonpositive_savings_weak negative_savings [] 36).
  - intros v H. vm_compute in H. discriminate H.
  - vm_compute. reflexivity.
  - vm_compute. reflexivity.
Defined.
